(** * llm-scraper-website: job orchestrator, notification hub, extraction analyzer

    A shallow embedding of parts of the backend:

    - [app/services/extraction_analyzer.py]  (class [ExtractionAnalyzer]),
    - [app/api/websocket.py]                 (class [ConnectionManager], the
                                              endpoint and its handler),
    - [app/services/scraping_service.py]     (class [ScrapingService]),
    - [app/services/playwright_service.py]   (the cleaning of extracted data),
    - [app/models/scraping.py]               (the tables, the templates),

    followed by the properties of these parts that the specification states
    (C1 to C10) and by further properties read off the code (X1 onwards).

    Modelling conventions.

    - A Python [str] is a [string] of bytes; [lower] folds the ASCII letters.
    - A JSON-shaped Python value ([Dict[str, Any]] and what it contains) is a
      [json] tree; dictionaries are association lists in insertion order.
    - Python floats are modelled by exact rationals [Q]: every weight of the
      analyzer is a one-digit decimal, sums and the mean are exact.
    - A raised exception is a [PyExc] (class name and [str(e)] text); a call
      that may raise returns a [PyResult].
    - What the interpreter and its libraries supply ([urlparse], [str()] of a
      value, [isoformat]) is a field of [PyRuntime].
    - Coroutines run on one event loop.  A coroutine of the service is a
      function over the [World] that also returns the worlds it made visible
      on the way (after each commit and each broadcast), oldest first. *)

From Stdlib Require Import ZArith QArith Qround String Ascii List Bool Lia Lqa.
From stdpp Require Import gmap strings list fin_maps pretty.

Open Scope string_scope.

(* ===================================================================== *)
(** * Python values                                                       *)
(* ===================================================================== *)

(** An exception object: its class and the text [str(e)]. *)
Record PyExc := mkExc { exc_class : string; exc_text : string }.

Definition AttributeError (text : string) : PyExc := mkExc "AttributeError" text.
Definition TypeError (text : string) : PyExc := mkExc "TypeError" text.
Definition ValueError (text : string) : PyExc := mkExc "ValueError" text.
Definition Exception (text : string) : PyExc := mkExc "Exception" text.

(** [str(e)] *)
Definition str_of_exc (e : PyExc) : string := exc_text e.

Inductive PyResult (A : Type) : Type :=
| Ok (a : A)
| Raise (e : PyExc).
Arguments Ok {A} a.
Arguments Raise {A} e.

Definition rbind {A B} (r : PyResult A) (k : A -> PyResult B) : PyResult B :=
  match r with
  | Ok a => k a
  | Raise e => Raise e
  end.

#[global] Instance PyResult_ret : MRet PyResult := fun A a => Ok a.
#[global] Instance PyResult_bind : MBind PyResult :=
  fun A B k r => rbind r k.

#[warnings="-register-all"]
Inductive json : Type :=
| JNone
| JBool (b : bool)
| JInt (z : Z)
| JFloat (q : Q)
| JStr (s : string)
| JList (l : list json)
| JDict (d : list (string * json)).

(** A Python [dict] with string keys, in insertion order. *)
Abbreviation pydict := (list (string * json)).

(** [type(v).__name__] *)
Definition type_name (v : json) : string :=
  match v with
  | JNone => "NoneType"
  | JBool _ => "bool"
  | JInt _ => "int"
  | JFloat _ => "float"
  | JStr _ => "str"
  | JList _ => "list"
  | JDict _ => "dict"
  end.

Definition Qltb (x y : Q) : bool := negb (Qle_bool y x).

(** [bool(v)] *)
Definition truthy (v : json) : bool :=
  match v with
  | JNone => false
  | JBool b => b
  | JInt z => negb (z =? 0)%Z
  | JFloat q => negb (Qeq_bool q 0)
  | JStr s => negb (String.eqb s EmptyString)
  | JList l => match l with [] => false | _ => true end
  | JDict d => match d with [] => false | _ => true end
  end.

(** [d.get(k)] as an option, [d.get(k, default)], [d.get(k)] *)
Fixpoint dict_lookup (d : pydict) (k : string) : option json :=
  match d with
  | [] => None
  | (k', v) :: d' => if String.eqb k' k then Some v else dict_lookup d' k
  end.

Definition get_default (d : pydict) (k : string) (default : json) : json :=
  match dict_lookup d k with
  | Some v => v
  | None => default
  end.

Definition get (d : pydict) (k : string) : json := get_default d k JNone.

(** [v == s] for a string literal [s] *)
Definition eq_str (v : json) (s : string) : bool :=
  match v with
  | JStr t => String.eqb t s
  | _ => false
  end.

(** [isinstance(v, dict)] *)
Definition is_dict (v : json) : bool :=
  match v with
  | JDict _ => true
  | _ => false
  end.

(** [v.items()] *)
Definition items (v : json) : PyResult pydict :=
  match v with
  | JDict d => Ok d
  | _ => Raise (AttributeError
                  ("'" ++ type_name v ++ "' object has no attribute 'items'"))
  end.

(** [v.keys()] *)
Definition keys (v : json) : PyResult (list string) :=
  match v with
  | JDict d => Ok (map fst d)
  | _ => Raise (AttributeError
                  ("'" ++ type_name v ++ "' object has no attribute 'keys'"))
  end.

(** [len(v)] *)
Definition len (v : json) : PyResult nat :=
  match v with
  | JStr s => Ok (String.length s)
  | JList l => Ok (length l)
  | JDict d => Ok (length d)
  | _ => Raise (TypeError
                  ("object of type '" ++ type_name v ++ "' has no len()"))
  end.

(** [v > n] for an integer literal [n] *)
Definition gt_int (v : json) (n : Z) : PyResult bool :=
  match v with
  | JBool b => Ok ((n <? (if b then 1 else 0))%Z)
  | JInt z => Ok ((n <? z)%Z)
  | JFloat q => Ok (Qltb (inject_Z n) q)
  | _ => Raise (TypeError
                  ("'>' not supported between instances of '" ++ type_name v
                   ++ "' and 'int'"))
  end.

(* ===================================================================== *)
(** * Python strings                                                      *)
(* ===================================================================== *)

Definition lower_ascii (c : ascii) : ascii :=
  let n := nat_of_ascii c in
  if (65 <=? n)%nat && (n <=? 90)%nat then ascii_of_nat (n + 32) else c.

(** [s.lower()] *)
Fixpoint lower (s : string) : string :=
  match s with
  | EmptyString => EmptyString
  | String c s' => String (lower_ascii c) (lower s')
  end.

(** [sub in s] *)
Fixpoint contains (sub s : string) : bool :=
  match s with
  | EmptyString => String.prefix sub EmptyString
  | String _ s' => String.prefix sub s || contains sub s'
  end.

(** [any(x in s for x in xs)] *)
Definition any_in (xs : list string) (s : string) : bool :=
  existsb (fun x => contains x s) xs.

(** [sum(1 for x in xs if x in s)] *)
Definition count_in (xs : list string) (s : string) : nat :=
  length (filter (fun x => contains x s = true) xs).

(** [s.replace(c, new)] for a one-character [c] *)
Fixpoint replace_char (c : ascii) (new : string) (s : string) : string :=
  match s with
  | EmptyString => EmptyString
  | String a s' =>
      if Ascii.eqb a c then new ++ replace_char c new s'
      else String a (replace_char c new s')
  end.

(** [v.replace(c, new)] on a value that need not be a string *)
Definition replace (v : json) (c : ascii) (new : string) : PyResult string :=
  match v with
  | JStr s => Ok (replace_char c new s)
  | _ => Raise (AttributeError
                  ("'" ++ type_name v ++ "' object has no attribute 'replace'"))
  end.

Definition gt_sign : ascii := ascii_of_nat 62.
Definition backslash : string := String (ascii_of_nat 92) EmptyString.
Definition dquote : string := String (ascii_of_nat 34) EmptyString.
(** the UTF-8 bytes of U+2605, the black star *)
Definition black_star : string :=
  String (ascii_of_nat 226) (String (ascii_of_nat 152)
    (String (ascii_of_nat 133) EmptyString)).

(** [len(re.findall(r'<script[^>]*>', s, re.IGNORECASE))]: the leftmost
    match starts at the first [<script] (any case) and ends at the next [>];
    the search resumes after it.  [in_tag] holds between the two. *)
Fixpoint count_script_tags (in_tag : bool) (s : string) : nat :=
  match s with
  | EmptyString => 0
  | String c s' =>
      if in_tag then
        if Ascii.eqb c gt_sign then S (count_script_tags false s')
        else count_script_tags true s'
      else if String.prefix "<script" (lower (String.substring 0 7 s))
           then count_script_tags true s'
           else count_script_tags false s'
  end.

(** What the interpreter supplies. *)
Record PyRuntime := {
  (** [urllib.parse.urlparse(url).netloc]; raises [ValueError] on some
      malformed bracketed hosts *)
  urlparse_netloc : string -> PyResult string;
  (** [str(v)], as an f-string formats a value *)
  py_format : json -> string;
  (** [t.isoformat()] of a clock reading *)
  isoformat : nat -> string
}.

(* ===================================================================== *)
(** * ExtractionAnalyzer (app/services/extraction_analyzer.py)            *)
(* ===================================================================== *)

Definition js_frameworks : list string :=
  ["react"; "angular"; "vue"; "svelte"; "ember";
   "backbone"; "knockout"; "polymer"; "lit"].

Definition spa_indicators : list string :=
  ["data-reactroot"; "ng-app"; "ng-version"; "v-if"; "v-for";
   "__NEXT_DATA__"; "__NUXT__"; "gatsby"; "webpack"].

Definition heavy_js_domains : list string :=
  ["linkedin.com"; "facebook.com"; "twitter.com"; "instagram.com";
   "youtube.com"; "netflix.com"; "spotify.com"; "slack.com";
   "discord.com"; "figma.com"; "notion.so"; "airtable.com"].

(** One complexity factor: [{"score": ..., "reasons": [...]}]. *)
Record Factor := mkFactor { f_score : Q; f_reasons : list string }.

(** The running [score] and [reasons] of a factor analysis. *)
Definition tally : Type := Q * list string.

(** [score += w; reasons.append(r)] *)
Definition bump (w : Q) (r : string) (t : tally) : tally :=
  ((fst t + w)%Q, (snd t ++ [r])%list).

(** [score += w] *)
Definition bump_score (w : Q) (t : tally) : tally := ((fst t + w)%Q, snd t).

(** [min(score, 1.0)]: the first argument unless the second is smaller *)
Definition min_one (score : Q) : Q := if Qltb 1 score then 1%Q else score.

(** [{"score": min(score, 1.0), "reasons": reasons}] *)
Definition close_factor (t : tally) : Factor :=
  mkFactor (min_one (fst t)) (snd t).

Definition _analyze_domain_complexity (domain : string) : Factor :=
  let t : tally := (0%Q, []) in
  (* Check for known heavy JS domains; the loop breaks at the first one *)
  let t := match find (fun heavy_domain => contains heavy_domain domain)
                      heavy_js_domains with
           | Some heavy_domain =>
               bump 0.8 ("Known heavy JavaScript domain: " ++ heavy_domain) t
           | None => t
           end in
  (* Social media platforms *)
  let social_indicators :=
    ["facebook"; "twitter"; "instagram"; "linkedin"; "tiktok"] in
  let t := if any_in social_indicators domain
           then bump 0.7 "Social media platform - requires complex interaction" t
           else t in
  (* E-commerce platforms *)
  let ecommerce_indicators := ["amazon"; "ebay"; "shopify"; "etsy"; "alibaba"] in
  let t := if any_in ecommerce_indicators domain
           then bump 0.5 "E-commerce platform - dynamic pricing and inventory" t
           else t in
  (* SaaS applications *)
  let saas_indicators := ["app"; "dashboard"; "admin"; "portal"; "console"] in
  let t := if any_in saas_indicators domain
           then bump 0.6 "SaaS application - likely requires authentication" t
           else t in
  close_factor t.

Definition _analyze_html_complexity (html_content : string) : Factor :=
  let t : tally := (0%Q, []) in
  (* Check for JavaScript frameworks *)
  let t := fold_left
             (fun t framework =>
                if contains (lower framework) (lower html_content)
                then bump 0.3 ("JavaScript framework detected: " ++ framework) t
                else t)
             js_frameworks t in
  (* Check for SPA indicators *)
  let t := fold_left
             (fun t indicator =>
                if contains indicator html_content
                then bump 0.4
                       ("Single Page Application indicator: " ++ indicator) t
                else t)
             spa_indicators t in
  (* Analyze script tags *)
  let script_count := count_script_tags false html_content in
  let t := if (20 <? script_count)%nat
           then bump 0.5 ("High number of script tags: " ++ pretty script_count) t
           else if (10 <? script_count)%nat
           then bump 0.3
                  ("Moderate number of script tags: " ++ pretty script_count) t
           else t in
  (* Check for dynamic content indicators *)
  let dynamic_indicators :=
    ["data-bind"; "ng-"; "v-"; "@click"; "onclick";
     "data-react"; "data-vue"; "x-data"; "wire:"] in
  let dynamic_count := count_in dynamic_indicators (lower html_content) in
  let t := if (10 <? dynamic_count)%nat
           then bump 0.4
                  ("High dynamic content indicators: " ++ pretty dynamic_count) t
           else if (5 <? dynamic_count)%nat
           then bump 0.2
                  ("Moderate dynamic content indicators: "
                   ++ pretty dynamic_count) t
           else t in
  (* Check for loading indicators *)
  let loading_indicators := ["loading"; "spinner"; "skeleton"; "placeholder"] in
  let t := if any_in loading_indicators (lower html_content)
           then bump 0.3 "Loading indicators suggest dynamic content" t
           else t in
  (* Check for AJAX/fetch patterns *)
  let ajax_patterns :=
    ["fetch("; "axios"; "XMLHttpRequest"; "$.ajax"; "$.get"; "$.post"] in
  let ajax_count := count_in ajax_patterns html_content in
  let t := if (0 <? ajax_count)%nat
           then bump 0.4 ("AJAX/fetch patterns detected: " ++ pretty ajax_count) t
           else t in
  close_factor t.

(** [schema_definition.get("items", {})] for an array schema, else
    [schema_definition.get("properties", {})] *)
Definition schema_fields (schema_definition : pydict) : json :=
  if eq_str (get schema_definition "type") "array"
  then get_default schema_definition "items" (JDict [])
  else get_default schema_definition "properties" (JDict []).

(** One round of the loop over complex field types: the running
    [complex_fields] and [score]. *)
Definition complex_field_step (acc : nat * tally) (item : string * json)
  : nat * tally :=
  match snd item with
  | JDict field_config =>
      let field_type := get_default field_config "type" (JStr "string") in
      if eq_str field_type "array" || eq_str field_type "object"
      then (S (fst acc), bump_score 0.2 (snd acc))
      else acc
  | _ => acc
  end.

(** One round of the loop over validation patterns. *)
Definition pattern_field_step (pattern_fields : nat) (item : string * json)
  : nat :=
  match snd item with
  | JDict field_config =>
      if truthy (get field_config "validationPattern")
      then S pattern_fields else pattern_fields
  | _ => pattern_fields
  end.

Definition _analyze_schema_complexity (schema_definition : pydict)
  : PyResult Factor :=
  let t : tally := (0%Q, []) in
  (* Count fields *)
  let fields := schema_fields schema_definition in
  field_count ← len fields;
  let t := if (15 <? field_count)%nat
           then bump 0.3
                  ("High number of fields to extract: " ++ pretty field_count) t
           else if (8 <? field_count)%nat
           then bump 0.1
                  ("Moderate number of fields to extract: "
                   ++ pretty field_count) t
           else t in
  (* Check for complex field types *)
  field_items ← items fields;
  let '(complex_fields, t) := fold_left complex_field_step field_items (0%nat, t) in
  let t := if (0 <? complex_fields)%nat
           then (fst t,
                 (snd t ++ ["Complex field types detected: "
                            +:+ pretty complex_fields
                            +:+ " array/object fields"])%list)
           else t in
  (* Check for validation patterns *)
  field_items ← items fields;
  let pattern_fields := fold_left pattern_field_step field_items 0%nat in
  let t := if (3 <? pattern_fields)%nat
           then bump 0.1
                  ("Multiple validation patterns: " ++ pretty pattern_fields) t
           else t in
  Ok (close_factor t).

(** [load_time > hi], else [load_time > lo]: the tier of a metric, 2, 1 or 0.
    The second comparison runs only when the first is false. *)
Definition tier (v : json) (hi lo : Z) : PyResult nat :=
  above_hi ← gt_int v hi;
  if above_hi : bool then Ok 2%nat
  else above_lo ← gt_int v lo;
       Ok (if above_lo : bool then 1%nat else 0%nat).

Definition _analyze_page_metrics (rt : PyRuntime) (page_metrics : pydict)
  : PyResult Factor :=
  let t : tally := (0%Q, []) in
  (* Load time analysis *)
  let load_time := get_default page_metrics "load_time" (JInt 0) in
  load_tier ← tier load_time 10 5;
  let t := match load_tier with
           | 2%nat => bump 0.5 ("Slow page load time: "
                                ++ py_format rt load_time ++ "s") t
           | 1%nat => bump 0.2 ("Moderate page load time: "
                                ++ py_format rt load_time ++ "s") t
           | _ => t
           end in
  (* Network requests *)
  let request_count := get_default page_metrics "network_requests" (JInt 0) in
  request_tier ← tier request_count 100 50;
  let t := match request_tier with
           | 2%nat => bump 0.4 ("High number of network requests: "
                                ++ py_format rt request_count) t
           | 1%nat => bump 0.2 ("Moderate number of network requests: "
                                ++ py_format rt request_count) t
           | _ => t
           end in
  (* JavaScript execution time *)
  let js_time := get_default page_metrics "js_execution_time" (JInt 0) in
  js_high ← gt_int js_time 5;
  let t := if js_high : bool
           then bump 0.3 ("High JavaScript execution time: "
                          ++ py_format rt js_time ++ "s") t
           else t in
  Ok (close_factor t).

Definition _requires_user_interaction
    (html_content : string) (schema_definition : pydict) (domain : string)
  : bool :=
  (* Check for authentication requirements *)
  let auth_indicators :=
    ["login"; "sign in"; "authenticate"; "password";
     "data-requires-auth"; "protected"; "unauthorized"] in
  if any_in auth_indicators (lower html_content) then true else
  (* Check for pagination or infinite scroll *)
  let pagination_indicators :=
    ["load more"; "show more"; "next page"; "pagination";
     "infinite-scroll"; "lazy-load"] in
  if any_in pagination_indicators (lower html_content) then true else
  (* Check for modal dialogs or popups *)
  let modal_indicators := ["modal"; "popup"; "dialog"; "overlay"] in
  if any_in modal_indicators (lower html_content) then true else
  (* Domain-specific interaction requirements *)
  let interaction_domains :=
    ["linkedin.com"; "facebook.com"; "instagram.com";
     "twitter.com"; "discord.com"; "slack.com"] in
  if existsb (fun domain_check => contains domain_check domain)
             interaction_domains
  then true else false.

(** [d[k] = v] on a dictionary in insertion order *)
Fixpoint dict_set {V} (d : list (string * V)) (k : string) (v : V)
  : list (string * V) :=
  match d with
  | [] => [(k, v)]
  | (k', v') :: d' =>
      if String.eqb k' k then (k, v) :: d' else (k', v') :: dict_set d' k v
  end.

(** The generated validation schema:
    [{"schema_type": ..., "fields": ..., "generated_at": ...}]. *)
Record ZodValidation := mkZod {
  schema_type : json;
  zod_fields : list (string * string);
  generated_at : string
}.

(** The body of the loop of [_generate_zod_validation] for a field whose
    configuration is a dict: the Zod type text of the field. *)
Definition zod_type_of (rt : PyRuntime) (field_config : pydict)
  : PyResult string :=
  let field_type := get_default field_config "type" (JStr "string") in
  let is_required := get_default field_config "required" (JBool false) in
  (* Base Zod type *)
  zod_type ←
    (if eq_str field_type "string" then
       let zod_type := "z.string()" in
       (* Add string validations *)
       let zod_type :=
         if truthy (get field_config "minLength")
         then zod_type ++ ".min(" ++ py_format rt (get field_config "minLength")
              ++ ")"
         else zod_type in
       let zod_type :=
         if truthy (get field_config "maxLength")
         then zod_type ++ ".max(" ++ py_format rt (get field_config "maxLength")
              ++ ")"
         else zod_type in
       if truthy (get field_config "validationPattern")
       then pattern ← replace (get field_config "validationPattern")
                              (ascii_of_nat 92) (backslash ++ backslash);
            Ok (zod_type ++ ".regex(/" ++ pattern ++ "/)")
       else Ok zod_type
     else if eq_str field_type "number" then Ok "z.number()"
     else if eq_str field_type "boolean" then Ok "z.boolean()"
     else if eq_str field_type "array" then Ok "z.array(z.string())"
     else Ok "z.string()");
  (* Add optional/required *)
  let zod_type := if negb (truthy is_required)
                  then zod_type ++ ".optional()" else zod_type in
  (* Add description *)
  if truthy (get field_config "description")
  then description ← replace (get field_config "description")
                             (ascii_of_nat 34) (backslash ++ dquote);
       Ok (zod_type ++ ".describe(" ++ dquote ++ description ++ dquote ++ ")")
  else Ok zod_type.

(** One round of the loop of [_generate_zod_validation]. *)
Definition zod_step (rt : PyRuntime)
    (zod_schema : PyResult (list (string * string))) (item : string * json)
  : PyResult (list (string * string)) :=
  zod_schema ← zod_schema;
  match snd item with
  | JDict field_config =>
      zod_type ← zod_type_of rt field_config;
      Ok (dict_set zod_schema (fst item) zod_type)
  | _ => Ok zod_schema
  end.

Definition _generate_zod_validation
    (rt : PyRuntime) (now : nat) (schema_definition : pydict)
  : PyResult ZodValidation :=
  let fields := schema_fields schema_definition in
  field_items ← items fields;
  zod_schema ← fold_left (zod_step rt) field_items (Ok []);
  Ok {| schema_type := get_default schema_definition "type" (JStr "object");
        zod_fields := zod_schema;
        generated_at := isoformat rt now |}.

(** The hint of one field name, if any. *)
Definition field_hint (field_name : string) : list string :=
  if contains "title" (lower field_name)
  then ["Title field - prioritize h1, h2, .title, .headline selectors"]
  else if contains "price" (lower field_name)
  then ["Price field - look for currency symbols and .price, .cost selectors"]
  else if contains "image" (lower field_name)
  then ["Image field - extract from img src attributes"]
  else [].

Definition _generate_extraction_hints
    (schema_definition : pydict) (html_content : string)
  : PyResult (list string) :=
  let hints : list string := [] in
  (* Analyze HTML structure *)
  let hints := if contains "<article" html_content
               then (hints ++ ["Page contains <article> tags - likely news/blog content"])%list
               else hints in
  let hints := if contains "product" (lower html_content)
               then (hints ++ ["Product-related content detected - use e-commerce selectors"])%list
               else hints in
  let hints := if contains "price" (lower html_content)
               then (hints ++ ["Price information detected - look for currency symbols"])%list
               else hints in
  let hints := if contains "rating" (lower html_content)
                  || contains black_star html_content
               then (hints ++ ["Rating/review content detected"])%list
               else hints in
  (* Schema-based hints *)
  let hints := if eq_str (get schema_definition "type") "array"
               then (hints ++ ["Array schema - look for repeated elements/lists"])%list
               else hints in
  let fields := schema_fields schema_definition in
  field_names ← keys fields;
  Ok (hints ++ concat (map field_hint field_names))%list.

(** The result of the analysis. *)
Record Analysis := mkAnalysis {
  method : string;
  complexity_score : Q;
  reasons : list string;
  estimated_load_time : Z;
  requires_interaction : bool;
  zod_validation : ZodValidation;
  extraction_hints : list string
}.

(** [int(x)] of a float: truncation towards zero *)
Definition py_int (x : Q) : Z := Z.quot (Qnum x) (Z.pos (Qden x)).

(** [sum(factor["score"] for factor in complexity_factors)] *)
Definition sum_scores (complexity_factors : list Factor) : Q :=
  fold_left Qplus (map f_score complexity_factors) 0%Q.


(** The list [complexity_factors] as the analysis builds it. *)
Definition complexity_factors
    (rt : PyRuntime) (domain html_content : string)
    (schema_definition : pydict) (page_metrics : option pydict)
  : PyResult (list Factor) :=
  (* 1. Domain-based analysis *)
  let domain_complexity := _analyze_domain_complexity domain in
  (* 2. HTML content analysis *)
  let content_complexity := _analyze_html_complexity html_content in
  (* 3. Schema complexity analysis *)
  schema_complexity ← _analyze_schema_complexity schema_definition;
  (* 4. Page metrics analysis (if available) *)
  match page_metrics with
  | Some (item :: rest) =>
      metrics_complexity ← _analyze_page_metrics rt (item :: rest);
      Ok [domain_complexity; content_complexity; schema_complexity;
          metrics_complexity]
  | _ => Ok [domain_complexity; content_complexity; schema_complexity]
  end.

(** The [try] block of [analyze_extraction_requirements]. *)
Definition analysis_try
    (rt : PyRuntime) (now : nat) (url html_content : string)
    (schema_definition : pydict) (page_metrics : option pydict)
  : PyResult Analysis :=
  (* Parse URL for domain analysis *)
  netloc ← urlparse_netloc rt url;
  let domain := lower netloc in
  (* Initialize analysis result *)
  zod ← _generate_zod_validation rt now schema_definition;
  hints ← _generate_extraction_hints schema_definition html_content;
  (* Analyze different complexity factors *)
  factors ← complexity_factors rt domain html_content schema_definition
                               page_metrics;
  (* Calculate overall complexity *)
  let score := (sum_scores factors / inject_Z (Z.of_nat (length factors)))%Q in
  (* Collect all reasons *)
  let all_reasons := concat (map f_reasons factors) in
  (* Determine extraction method *)
  let '(chosen, load_time) :=
    if Qltb 0.6 score
    then ("playwright", Z.min 90 (py_int (10 + score * 80)))
    else ("javascript", Z.min 15 (py_int (3 + score * 12))) in
  (* Check for interaction requirements *)
  let interaction :=
    _requires_user_interaction html_content schema_definition domain in
  Ok {| method := if interaction then "playwright" else chosen;
        complexity_score := score;
        reasons :=
          if interaction
          then (all_reasons ++
                ["Requires user interaction (clicks, scrolling, form filling)"])%list
          else all_reasons;
        estimated_load_time := load_time;
        requires_interaction := interaction;
        zod_validation := zod;
        extraction_hints := hints |}.

(** [analyze_extraction_requirements]: the [try] block, and the handler of
    [except Exception as e], which builds the fallback with a second call of
    [_generate_zod_validation]. *)
Definition analyze_extraction_requirements
    (rt : PyRuntime) (now : nat) (url html_content : string)
    (schema_definition : pydict) (page_metrics : option pydict)
  : PyResult Analysis :=
  match analysis_try rt now url html_content schema_definition page_metrics with
  | Ok analysis => Ok analysis
  | Raise e =>
      (* Fallback to safe default *)
      zod ← _generate_zod_validation rt (S now) schema_definition;
      Ok {| method := "playwright";
            complexity_score := 0.8;
            reasons := ["Analysis error, defaulting to Playwright: "
                        ++ str_of_exc e];
            estimated_load_time := 30;
            requires_interaction := false;
            zod_validation := zod;
            extraction_hints := [] |}
  end.

(** ** A runtime for the examples

    [netloc_of] follows [urlsplit] on plain URLs: the network location is
    what stands between the first [//] and the next [/], [?] or [#]; a URL
    without [//] has none.  [format_of] prints integers and strings. *)

Definition is_netloc_end (c : ascii) : bool :=
  Ascii.eqb c "/" || Ascii.eqb c "?" || Ascii.eqb c "#".

Fixpoint take_netloc (s : string) : string :=
  match s with
  | EmptyString => EmptyString
  | String c s' => if is_netloc_end c then EmptyString
                   else String c (take_netloc s')
  end.

Fixpoint netloc_of (url : string) : string :=
  match url with
  | EmptyString => EmptyString
  | String c url' =>
      if String.prefix "//" url then take_netloc (String.substring 2 (String.length url) url)
      else if is_netloc_end c then EmptyString
      else netloc_of url'
  end.

Definition format_of (v : json) : string :=
  match v with
  | JInt z => pretty z
  | JStr s => s
  | JBool true => "True"
  | JBool false => "False"
  | JNone => "None"
  | _ => "..."
  end.

Definition example_runtime : PyRuntime :=
  {| urlparse_netloc := fun url => Ok (netloc_of url);
     py_format := format_of;
     isoformat := fun t => "T+" ++ pretty t |}.

(* ===================================================================== *)
(** * ConnectionManager (app/api/websocket.py)                            *)
(* ===================================================================== *)

(** A job id ([uuid.UUID]) is identified with its canonical text
    [str(job_id)]. *)
Abbreviation UUID := string (only parsing).

(** A client socket: whether the transport is still open, and the messages
    handed to [send_text] so far (each one the dict given to [json.dumps]). *)
Record WebSocket := mkWebSocket {
  ws_open : bool;
  ws_sent : list pydict
}.

(** [await websocket.send_text(json.dumps(message))] *)
Definition send_text (ws : WebSocket) (message : pydict) : PyResult WebSocket :=
  if ws_open ws
  then Ok {| ws_open := true; ws_sent := (ws_sent ws ++ [message])%list |}
  else Raise (mkExc "RuntimeError" "Cannot call send once a close message has been sent.").

Record ConnectionManager := mkManager {
  active_connections : gmap string WebSocket;
  job_subscribers : gmap UUID (list string)
}.

(** [ConnectionManager()] *)
Definition new_manager : ConnectionManager :=
  {| active_connections := ∅; job_subscribers := ∅ |}.

(** [l.remove(x)], for [x in l]: drops the first occurrence *)
Fixpoint list_remove (x : string) (l : list string) : list string :=
  match l with
  | [] => []
  | y :: l' => if String.eqb y x then l' else y :: list_remove x l'
  end.

(** [x in l] *)
Definition list_in (x : string) (l : list string) : bool :=
  existsb (String.eqb x) l.

Definition connect (websocket : WebSocket) (client_id : string)
    (m : ConnectionManager) : ConnectionManager :=
  {| active_connections := <[client_id := websocket]> (active_connections m);
     job_subscribers := job_subscribers m |}.

(** The body of the loop of [disconnect] for one job: what becomes of its
    list of subscribers ([None]: the entry is deleted). *)
Definition drop_subscriber (client_id : string) (subscribers : list string)
  : option (list string) :=
  if list_in client_id subscribers then
    match list_remove client_id subscribers with
    | [] => None
    | remaining => Some remaining
    end
  else Some subscribers.

Definition disconnect (client_id : string) (m : ConnectionManager)
  : ConnectionManager :=
  {| active_connections := delete client_id (active_connections m);
     (* Remove from job subscribers *)
     job_subscribers := omap (drop_subscriber client_id) (job_subscribers m) |}.

Definition send_personal_message (message : pydict) (client_id : string)
    (m : ConnectionManager) : ConnectionManager :=
  match active_connections m !! client_id with
  | Some ws =>
      match send_text ws message with
      | Ok ws' =>
          {| active_connections := <[client_id := ws']> (active_connections m);
             job_subscribers := job_subscribers m |}
      | Raise _ => disconnect client_id m
      end
  | None => m
  end.

(** One round of the first loop of [broadcast_job_update]: the sockets and
    the list [disconnected_clients]. *)
Definition job_update_step (message : pydict)
    (acc : gmap string WebSocket * list string) (client_id : string)
  : gmap string WebSocket * list string :=
  match fst acc !! client_id with
  | Some ws =>
      match send_text ws message with
      | Ok ws' => (<[client_id := ws']> (fst acc), snd acc)
      | Raise _ => (fst acc, (snd acc ++ [client_id])%list)
      end
  | None => (fst acc, (snd acc ++ [client_id])%list)
  end.

(** One round of the clean-up loop of [broadcast_job_update]. *)
Definition job_cleanup_step (subscribers : list string) (client_id : string)
  : list string :=
  if list_in client_id subscribers then list_remove client_id subscribers
  else subscribers.

Definition broadcast_job_update (job_id : UUID) (message : pydict)
    (m : ConnectionManager) : ConnectionManager :=
  match job_subscribers m !! job_id with
  | Some subscribers =>
      let '(connections, disconnected_clients) :=
        fold_left (job_update_step message) subscribers
                  (active_connections m, []) in
      (* Clean up disconnected clients *)
      {| active_connections := connections;
         job_subscribers :=
           <[job_id := fold_left job_cleanup_step disconnected_clients
                                 subscribers]> (job_subscribers m) |}
  | None => m
  end.

Definition subscribe_to_job (job_id : UUID) (client_id : string)
    (m : ConnectionManager) : ConnectionManager :=
  let subscribers := default [] (job_subscribers m !! job_id) in
  {| active_connections := active_connections m;
     job_subscribers :=
       <[job_id := if list_in client_id subscribers then subscribers
                   else (subscribers ++ [client_id])%list]>
         (job_subscribers m) |}.

Definition unsubscribe_from_job (job_id : UUID) (client_id : string)
    (m : ConnectionManager) : ConnectionManager :=
  match job_subscribers m !! job_id with
  | Some subscribers =>
      if list_in client_id subscribers then
        {| active_connections := active_connections m;
           job_subscribers :=
             match list_remove client_id subscribers with
             | [] => delete job_id (job_subscribers m)
             | remaining => <[job_id := remaining]> (job_subscribers m)
             end |}
      else m
  | None => m
  end.

(** The send of [broadcast_to_all] to one socket; a failed send leaves the
    socket as it is. *)
Definition deliver (message : pydict) (ws : WebSocket) : WebSocket :=
  match send_text ws message with
  | Ok ws' => ws'
  | Raise _ => ws
  end.

(** The clients whose send raised, [disconnected_clients]. *)
Definition send_fails (message : pydict) (ws : WebSocket) : bool :=
  match send_text ws message with
  | Raise _ => true
  | Ok _ => false
  end.

Definition failed_clients (message : pydict)
    (connections : gmap string WebSocket) : list string :=
  map fst (filter (fun item => send_fails message (snd item) = true)
                  (map_to_list connections)).

Definition broadcast_to_all (message : pydict) (m : ConnectionManager)
  : ConnectionManager :=
  let disconnected_clients := failed_clients message (active_connections m) in
  let m := {| active_connections := deliver message <$> active_connections m;
              job_subscribers := job_subscribers m |} in
  (* Clean up disconnected clients *)
  fold_left (fun m client_id => disconnect client_id m) disconnected_clients m.

(** The states of the hub: from the empty manager by its operations. *)
Inductive reachable : ConnectionManager -> Prop :=
| reach_new : reachable new_manager
| reach_connect ws c m :
    reachable m -> reachable (connect ws c m)
| reach_disconnect c m :
    reachable m -> reachable (disconnect c m)
| reach_subscribe j c m :
    reachable m -> reachable (subscribe_to_job j c m)
| reach_unsubscribe j c m :
    reachable m -> reachable (unsubscribe_from_job j c m)
| reach_send msg c m :
    reachable m -> reachable (send_personal_message msg c m)
| reach_job_update j msg m :
    reachable m -> reachable (broadcast_job_update j msg m)
| reach_broadcast msg m :
    reachable m -> reachable (broadcast_to_all msg m)
| reach_transport c open m ws :
    (* the transport of a connected client closes or is observed open *)
    reachable m -> active_connections m !! c = Some ws ->
    reachable {| active_connections :=
                   <[c := {| ws_open := open; ws_sent := ws_sent ws |}]>
                     (active_connections m);
                 job_subscribers := job_subscribers m |}.

(* ===================================================================== *)
(** * ScrapingService (app/services/scraping_service.py)                  *)
(* ===================================================================== *)

(** ** The tables of [app/models/scraping.py] *)

Record ScrapingJob := mkJob {
  job_url : string;
  job_schema_definition : pydict;
  job_status : string;
  job_created_at : nat;
  job_completed_at : option nat;
  job_error_message : option string;
  job_user_id : string
}.

Record GeneratedScript := mkScript {
  script_job_id : UUID;
  script_content : string;
  script_type : string;
  script_created_at : nat
}.

Record ExtractedData := mkData {
  data_job_id : UUID;
  data : json;
  extracted_at : nat;
  data_count : nat
}.


(** The coroutine handed to [asyncio.create_task]: a call of
    [_execute_scraping_job] that has not run yet. *)
Record Task := mkTask {
  task_job_id : UUID;
  task_url : string;
  task_schema_definition : pydict
}.

(** What the coroutines of the service share: the committed rows of the
    database, the global [connection_manager], the registry
    [self.active_jobs] and the clock. *)
Record World := mkWorld {
  scraping_jobs : gmap UUID ScrapingJob;
  generated_scripts : list GeneratedScript;
  extracted_data : list ExtractedData;
  connection_manager : ConnectionManager;
  active_jobs : gmap UUID Task;
  clock : nat
}.

(** ** Coroutines *)

(** A run of a coroutine: the worlds it made visible, oldest first, how it
    ended, and the world it left. *)
Record Run (A : Type) := mkRun {
  seen : list World;
  outcome : PyResult A;
  final : World
}.
Arguments mkRun {A} seen outcome final.
Arguments seen {A} r.
Arguments outcome {A} r.
Arguments final {A} r.

Definition Coroutine (A : Type) : Type := World -> Run A.

#[global] Instance Coroutine_ret : MRet Coroutine :=
  fun A a w => mkRun [] (Ok a) w.

#[global] Instance Coroutine_bind : MBind Coroutine :=
  fun A B k c w =>
    let r := c w in
    match outcome r with
    | Ok a => let r' := k a (final r) in
              mkRun (seen r ++ seen r')%list (outcome r') (final r')
    | Raise e => mkRun (seen r) (Raise e) (final r)
    end.

(** [raise e] *)
Definition raise {A} (e : PyExc) : Coroutine A :=
  fun w => mkRun [] (Raise e) w.

(** A change of the world that the other coroutines can see. *)
Definition effect (f : World -> World) : Coroutine unit :=
  fun w => mkRun [f w] (Ok tt) (f w).

(** [await] of a collaborator whose outcome is [r] *)
Definition await {A} (r : PyResult A) : Coroutine A :=
  fun w => mkRun [] r w.

(** [try: body  except Exception as e: handler e] *)
Definition try_except {A} (body : Coroutine A) (handler : PyExc -> Coroutine A)
  : Coroutine A :=
  fun w =>
    let r := body w in
    match outcome r with
    | Ok _ => r
    | Raise e => let r' := handler e (final r) in
                 mkRun (seen r ++ seen r')%list (outcome r') (final r')
    end.

(** [try: body  finally: cleanup] *)
Definition try_finally {A} (body : Coroutine A) (cleanup : Coroutine unit)
  : Coroutine A :=
  fun w =>
    let r := body w in
    let r' := cleanup (final r) in
    mkRun (seen r ++ seen r')%list
          (match outcome r' with
           | Ok _ => outcome r
           | Raise e => Raise e
           end)
          (final r').

(** [datetime.utcnow()]: reads the clock, which then moves on *)
Definition utcnow : Coroutine nat :=
  fun w => mkRun [] (Ok (clock w))
             {| scraping_jobs := scraping_jobs w;
                generated_scripts := generated_scripts w;
                extracted_data := extracted_data w;
                connection_manager := connection_manager w;
                active_jobs := active_jobs w;
                clock := S (clock w) |}.

Definition with_jobs (f : gmap UUID ScrapingJob -> gmap UUID ScrapingJob)
    (w : World) : World :=
  {| scraping_jobs := f (scraping_jobs w);
     generated_scripts := generated_scripts w;
     extracted_data := extracted_data w;
     connection_manager := connection_manager w;
     active_jobs := active_jobs w;
     clock := clock w |}.

Definition with_scripts (f : list GeneratedScript -> list GeneratedScript)
    (w : World) : World :=
  {| scraping_jobs := scraping_jobs w;
     generated_scripts := f (generated_scripts w);
     extracted_data := extracted_data w;
     connection_manager := connection_manager w;
     active_jobs := active_jobs w;
     clock := clock w |}.

Definition with_data (f : list ExtractedData -> list ExtractedData)
    (w : World) : World :=
  {| scraping_jobs := scraping_jobs w;
     generated_scripts := generated_scripts w;
     extracted_data := f (extracted_data w);
     connection_manager := connection_manager w;
     active_jobs := active_jobs w;
     clock := clock w |}.

Definition with_manager (f : ConnectionManager -> ConnectionManager)
    (w : World) : World :=
  {| scraping_jobs := scraping_jobs w;
     generated_scripts := generated_scripts w;
     extracted_data := extracted_data w;
     connection_manager := f (connection_manager w);
     active_jobs := active_jobs w;
     clock := clock w |}.

Definition with_active_jobs (f : gmap UUID Task -> gmap UUID Task)
    (w : World) : World :=
  {| scraping_jobs := scraping_jobs w;
     generated_scripts := generated_scripts w;
     extracted_data := extracted_data w;
     connection_manager := connection_manager w;
     active_jobs := f (active_jobs w);
     clock := clock w |}.

(** [await connection_manager.broadcast_to_all(message)] inside its
    [try ... except Exception]: the manager's own method does not raise. *)
Definition broadcast (message : pydict) : Coroutine unit :=
  effect (with_manager (broadcast_to_all message)).

(** JSON of an [Optional[str]] *)
Definition json_of_option (o : option string) : json :=
  match o with
  | Some s => JStr s
  | None => JNone
  end.

(** [if error_message:] on an [Optional[str]] *)
Definition nonempty (o : option string) : bool :=
  match o with
  | Some s => negb (String.eqb s EmptyString)
  | None => false
  end.

(** [status in ["completed", "failed", "cancelled"]] *)
Definition is_terminal (status : string) : bool :=
  String.eqb status "completed" || String.eqb status "failed"
  || String.eqb status "cancelled".

(** The row after the [UPDATE] with the values of [update_data]. *)
Definition apply_update (status : string) (completed_at : option nat)
    (error_message : option string) (job : ScrapingJob) : ScrapingJob :=
  {| job_url := job_url job;
     job_schema_definition := job_schema_definition job;
     job_status := status;
     job_created_at := job_created_at job;
     job_completed_at := match completed_at with
                         | Some t => Some t
                         | None => job_completed_at job
                         end;
     job_error_message := if nonempty error_message then error_message
                          else job_error_message job;
     job_user_id := job_user_id job |}.

Definition _update_job_status (rt : PyRuntime) (job_id : UUID)
    (status : string) (error_message : option string) : Coroutine unit :=
  completed_at ← (if is_terminal status
                  then t ← utcnow; mret (Some t)
                  else mret None);
  (* UPDATE scraping_jobs ... WHERE id = job_id; COMMIT *)
  effect (with_jobs (alter (apply_update status completed_at error_message)
                           job_id));;
  (* Broadcast real-time update to all connected clients *)
  timestamp ← utcnow;
  broadcast [("type", JStr "job_status_update");
             ("job_id", JStr job_id);
             ("status", JStr status);
             ("error_message", json_of_option error_message);
             ("timestamp", JStr (isoformat rt timestamp))].

Definition _log_job_progress (rt : PyRuntime) (job_id : UUID)
    (stage message : string) : Coroutine unit :=
  timestamp ← utcnow;
  (* Broadcast real-time progress update *)
  broadcast [("type", JStr "job_progress");
             ("job_id", JStr job_id);
             ("stage", JStr stage);
             ("message", JStr message);
             ("timestamp", JStr (isoformat rt timestamp))].

(** ** The collaborators *)

(** What [AIService.analyze_webpage_and_generate_script] returns:
    [{"status": ..., "script": ..., "error": ...}] ([error] may be absent). *)
Record ScriptResult := mkScriptResult {
  sr_status : string;
  sr_script : string;
  sr_error : option string
}.

(** What [PlaywrightService.execute_extraction_script] returns:
    [{"status": ..., "data": ..., "data_count": ..., "error": ...}]. *)
Record ExtractionResult := mkExtractionResult {
  er_status : string;
  er_data : json;
  er_data_count : nat;
  er_error : option string
}.

(** [d.get('error', 'Unknown error')] *)
Definition error_or_unknown (error : option string) : string :=
  default "Unknown error" error.

(** ** The service *)


(** [select(ScrapingJob).where(ScrapingJob.id == job_id)] *)
Definition select_job (job_id : UUID) : Coroutine (option ScrapingJob) :=
  fun w => mkRun [] (Ok (scraping_jobs w !! job_id)) w.

Definition start_scraping_job (rt : PyRuntime) (job_id : UUID)
  : Coroutine pydict :=
  try_except
    ((* Get job from database *)
     job ← select_job job_id;
     match job with
     | None => raise (Exception ("Job " ++ job_id ++ " not found"))
     | Some job =>
         if negb (String.eqb (job_status job) "pending")
         then raise (Exception ("Job " ++ job_id ++ " is not in pending status"))
         else
           (* Update job status to running *)
           _update_job_status rt job_id "running" None;;
           (* Start the scraping task asynchronously *)
           let task := {| task_job_id := job_id;
                          task_url := job_url job;
                          task_schema_definition := job_schema_definition job |} in
           effect (with_active_jobs (insert job_id task));;
           mret [("status", JStr "started");
                 ("job_id", JStr job_id);
                 ("message", JStr "Scraping job started successfully")]
     end)
    (fun e =>
       raise (Exception ("Failed to start scraping job: " ++ str_of_exc e))).

(** The [try] block of [_execute_scraping_job]. *)
Definition pipeline (rt : PyRuntime)
    (script_outcome : PyResult ScriptResult)
    (extraction_outcome : PyResult ExtractionResult)
    (job_id : UUID) (url : string) (schema_definition : pydict)
  : Coroutine unit :=
  (* Log: Job started *)
  _log_job_progress rt job_id "started" "Initializing scraping job";;
  (* Log: Generating script *)
  _log_job_progress rt job_id "generating_script"
                    "AI is generating extraction script";;
  (* Generate script using AI *)
  script_result ← await script_outcome;
  (if negb (String.eqb (sr_status script_result) "success")
   then raise (Exception ("Script generation failed: "
                          ++ error_or_unknown (sr_error script_result)))
   else mret tt);;
  (* Log: Script generated *)
  _log_job_progress rt job_id "script_ready"
    ("Generated " ++ pretty (String.length (sr_script script_result))
     ++ " character script");;
  (* Save generated script *)
  created_at ← utcnow;
  effect (with_scripts (fun scripts =>
            scripts ++ [{| script_job_id := job_id;
                           script_content := sr_script script_result;
                           script_type := "playwright";
                           script_created_at := created_at |}])%list);;
  (* Log: Starting extraction *)
  _log_job_progress rt job_id "extracting"
                    "Executing script and extracting data";;
  (* Execute extraction *)
  extraction_result ← await extraction_outcome;
  (if negb (String.eqb (er_status extraction_result) "success")
   then raise (Exception ("Extraction failed: "
                          ++ error_or_unknown (er_error extraction_result)))
   else mret tt);;
  (* Log: Data extracted *)
  let count := er_data_count extraction_result in
  _log_job_progress rt job_id "data_extracted"
    ("Successfully extracted " ++ pretty count ++ " items");;
  (* Save extracted data *)
  now ← utcnow;
  effect (with_data (fun rows =>
            rows ++ [{| data_job_id := job_id;
                        data := er_data extraction_result;
                        extracted_at := now;
                        data_count := count |}])%list);;
  (* Log: Job completed *)
  _log_job_progress rt job_id "completed"
    ("Job completed successfully with " ++ pretty count ++ " items");;
  _update_job_status rt job_id "completed" None.

Definition _execute_scraping_job (rt : PyRuntime)
    (script_outcome : PyResult ScriptResult)
    (extraction_outcome : PyResult ExtractionResult)
    (job_id : UUID) (url : string) (schema_definition : pydict)
  : Coroutine unit :=
  try_finally
    (try_except
       (pipeline rt script_outcome extraction_outcome job_id url
                 schema_definition)
       (fun e =>
          let error_message := str_of_exc e in
          (* Log: Job failed *)
          _log_job_progress rt job_id "failed"
                            ("Job failed: " ++ error_message);;
          _update_job_status rt job_id "failed" (Some error_message)))
    ((* Remove from active jobs *)
     effect (with_active_jobs (delete job_id))).

(** [get_active_job_ids] *)
Definition get_active_job_ids (w : World) : list UUID :=
  map fst (map_to_list (active_jobs w)).

(** ** What a reader of the database finds *)

(** The persisted status of a job, if the job exists. *)
Definition status_of (w : World) (job_id : UUID) : option string :=
  job_status <$> scraping_jobs w !! job_id.

Definition error_message_of (w : World) (job_id : UUID) : option string :=
  job ← scraping_jobs w !! job_id; job_error_message job.

(** [select(GeneratedScript).where(GeneratedScript.job_id == job_id)] *)
Definition scripts_of (w : World) (job_id : UUID) : list GeneratedScript :=
  filter (fun s => script_job_id s = job_id) (generated_scripts w).

(** The rows of [job.extracted_data] *)
Definition data_of (w : World) (job_id : UUID) : list ExtractedData :=
  filter (fun d => data_job_id d = job_id) (extracted_data w).

(** The messages a connected client was sent. *)
Definition sent_to (w : World) (client_id : string) : option (list pydict) :=
  ws_sent <$> active_connections (connection_manager w) !! client_id.

(** ** The worlds a run goes through

    [c] started in [w] shows the worlds [s], ends with [r] and leaves [w']. *)
Definition runs {A} (c : Coroutine A) (w : World) (s : list World)
    (r : PyResult A) (w' : World) : Prop :=
  c w = mkRun s r w'.

(** The world after a reading of the clock. *)
Definition tick (w : World) : World :=
  {| scraping_jobs := scraping_jobs w;
     generated_scripts := generated_scripts w;
     extracted_data := extracted_data w;
     connection_manager := connection_manager w;
     active_jobs := active_jobs w;
     clock := S (clock w) |}.

(** The message of [_log_job_progress]. *)
Definition progress_message (rt : PyRuntime) (job_id : UUID)
    (stage message : string) (timestamp : nat) : pydict :=
  [("type", JStr "job_progress");
   ("job_id", JStr job_id);
   ("stage", JStr stage);
   ("message", JStr message);
   ("timestamp", JStr (isoformat rt timestamp))].

(** The message of [_update_job_status]. *)
Definition status_message (rt : PyRuntime) (job_id : UUID)
    (status : string) (error_message : option string) (timestamp : nat)
  : pydict :=
  [("type", JStr "job_status_update");
   ("job_id", JStr job_id);
   ("status", JStr status);
   ("error_message", json_of_option error_message);
   ("timestamp", JStr (isoformat rt timestamp))].

(** The world after [_log_job_progress]. *)
Definition logged (rt : PyRuntime) (job_id : UUID) (stage message : string)
    (w : World) : World :=
  with_manager
    (broadcast_to_all (progress_message rt job_id stage message (clock w)))
    (tick w).

(** The world after the commit of [_update_job_status] (a terminal status
    reads the clock for [completed_at]), and after its broadcast. *)
Definition status_committed (job_id : UUID) (status : string)
    (error_message : option string) (w : World) : World :=
  if is_terminal status
  then with_jobs (alter (apply_update status (Some (clock w)) error_message)
                        job_id)
                 (tick w)
  else with_jobs (alter (apply_update status None error_message) job_id) w.

Definition status_announced (rt : PyRuntime) (job_id : UUID) (status : string)
    (error_message : option string) (w : World) : World :=
  with_manager
    (broadcast_to_all (status_message rt job_id status error_message (clock w)))
    (tick w).

(** The world after the commit of a script, and of a result. *)
Definition script_saved (job_id : UUID) (content : string) (w : World)
  : World :=
  with_scripts (fun scripts =>
                  scripts ++ [{| script_job_id := job_id;
                                 script_content := content;
                                 script_type := "playwright";
                                 script_created_at := clock w |}])%list
               (tick w).

Definition data_saved (job_id : UUID) (value : json) (count : nat) (w : World)
  : World :=
  with_data (fun rows =>
               rows ++ [{| data_job_id := job_id;
                           data := value;
                           extracted_at := clock w;
                           data_count := count |}])%list
            (tick w).



(** The interaction indicators of [_requires_user_interaction], by kind. *)
Definition auth_indicators : list string :=
  ["login"; "sign in"; "authenticate"; "password";
   "data-requires-auth"; "protected"; "unauthorized"].

Definition pagination_indicators : list string :=
  ["load more"; "show more"; "next page"; "pagination";
   "infinite-scroll"; "lazy-load"].

Definition modal_indicators : list string :=
  ["modal"; "popup"; "dialog"; "overlay"].

Definition interaction_domains : list string :=
  ["linkedin.com"; "facebook.com"; "instagram.com";
   "twitter.com"; "discord.com"; "slack.com"].

(** A page or domain shows an interaction indicator. *)
Definition interaction_indicator (html_content domain : string) : bool :=
  any_in auth_indicators (lower html_content)
  || any_in pagination_indicators (lower html_content)
  || any_in modal_indicators (lower html_content)
  || any_in interaction_domains domain.


(** Every list of subscribers holds a client once. *)
Definition subscribers_nodup (m : ConnectionManager) : Prop :=
  forall job_id subscribers,
    job_subscribers m !! job_id = Some subscribers -> NoDup subscribers.

(** A reader of the database who sees the job completed finds a script and
    a result of the job. *)
Definition completed_has_records (job_id : UUID) (w : World) : Prop :=
  status_of w job_id = Some "completed" ->
  scripts_of w job_id <> [] /\ data_of w job_id <> [].

(** ** The run of [_execute_scraping_job], spelled out *)

(** The handler and the [finally] block, entered in [w] with the exception
    text [text] after the [try] block showed the worlds [before]. *)
Definition failed_run (rt : PyRuntime) (job_id : UUID) (text : string)
    (before : list World) (w : World) : Run unit :=
  let w1 := logged rt job_id "failed" ("Job failed: " ++ text) w in
  let w2 := status_committed job_id "failed" (Some text) w1 in
  let w3 := status_announced rt job_id "failed" (Some text) w2 in
  let w4 := with_active_jobs (delete job_id) w3 in
  mkRun (before ++ [w1; w2; w3; w4])%list (Ok tt) w4.

(** The [try] block, spelled out. *)
Definition attempt (rt : PyRuntime)
    (script_outcome : PyResult ScriptResult)
    (extraction_outcome : PyResult ExtractionResult)
    (job_id : UUID) (w : World) : Run unit :=
  let w1 := logged rt job_id "started" "Initializing scraping job" w in
  let w2 := logged rt job_id "generating_script"
                   "AI is generating extraction script" w1 in
  match script_outcome with
  | Raise e => mkRun [w1; w2] (Raise e) w2
  | Ok script_result =>
      if negb (String.eqb (sr_status script_result) "success")
      then mkRun [w1; w2]
             (Raise (Exception
                       ("Script generation failed: "
                        ++ error_or_unknown (sr_error script_result))))
             w2
      else
        let w3 := logged rt job_id "script_ready"
                    ("Generated "
                     ++ pretty (String.length (sr_script script_result))
                     ++ " character script") w2 in
        let w4 := script_saved job_id (sr_script script_result) w3 in
        let w5 := logged rt job_id "extracting"
                         "Executing script and extracting data" w4 in
        match extraction_outcome with
        | Raise e => mkRun [w1; w2; w3; w4; w5] (Raise e) w5
        | Ok extraction_result =>
            if negb (String.eqb (er_status extraction_result) "success")
            then mkRun [w1; w2; w3; w4; w5]
                   (Raise (Exception
                             ("Extraction failed: "
                              ++ error_or_unknown
                                   (er_error extraction_result))))
                   w5
            else
              let count := er_data_count extraction_result in
              let w6 := logged rt job_id "data_extracted"
                          ("Successfully extracted " ++ pretty count
                           ++ " items") w5 in
              let w7 := data_saved job_id (er_data extraction_result) count
                                   w6 in
              let w8 := logged rt job_id "completed"
                          ("Job completed successfully with " ++ pretty count
                           ++ " items") w7 in
              let w9 := status_committed job_id "completed" None w8 in
              let w10 := status_announced rt job_id "completed" None w9 in
              mkRun [w1; w2; w3; w4; w5; w6; w7; w8; w9; w10] (Ok tt) w10
        end
  end.

(** The whole of [_execute_scraping_job]: the [try] block, the handler when
    it raised, and the [finally] block. *)
Definition execution (rt : PyRuntime)
    (script_outcome : PyResult ScriptResult)
    (extraction_outcome : PyResult ExtractionResult)
    (job_id : UUID) (w : World) : Run unit :=
  let r := attempt rt script_outcome extraction_outcome job_id w in
  match outcome r with
  | Ok _ =>
      let w' := with_active_jobs (delete job_id) (final r) in
      mkRun (seen r ++ [w'])%list (Ok tt) w'
  | Raise e => failed_run rt job_id (str_of_exc e) (seen r) (final r)
  end.

(** The [try] block completes: both collaborators report success. *)
Definition succeeds (script_outcome : PyResult ScriptResult)
    (extraction_outcome : PyResult ExtractionResult) : bool :=
  match script_outcome with
  | Ok script_result =>
      String.eqb (sr_status script_result) "success"
      && match extraction_outcome with
         | Ok extraction_result =>
             String.eqb (er_status extraction_result) "success"
         | Raise _ => false
         end
  | Raise _ => false
  end.

(** A schema whose [items] is a list, as JSON Schema allows. *)
Definition tuple_schema : pydict :=
  [("type", JStr "array"); ("items", JList [JStr "title"; JStr "price"])].

(** A client is connected over an open socket that was sent [sent]. *)
Definition open_client (w : World) (client_id : string) (sent : list pydict)
  : Prop :=
  active_connections (connection_manager w) !! client_id
  = Some {| ws_open := true; ws_sent := sent |}.

(** A world for the examples: one running job and two clients, of which
    only one subscribed to the job. *)
Definition example_world : World :=
  {| scraping_jobs :=
       {[ "job-1" := {| job_url := "https://example.com/";
                        job_schema_definition := [];
                        job_status := "running";
                        job_created_at := 0;
                        job_completed_at := None;
                        job_error_message := None;
                        job_user_id := "anonymous" |} ]};
     generated_scripts := [];
     extracted_data := [];
     connection_manager :=
       {| active_connections :=
            {[ "alice" := {| ws_open := true; ws_sent := [] |};
               "bob" := {| ws_open := true; ws_sent := [] |} ]};
          job_subscribers := {[ "job-1" := ["alice"] ]} |};
     active_jobs := {[ "job-1" := {| task_job_id := "job-1";
                                     task_url := "https://example.com/";
                                     task_schema_definition := [] |} ]};
     clock := 1 |}.

(** ** Names used by the statements *)


(** Answers of the two collaborators on a run that succeeds. *)
Definition example_script : ScriptResult :=
  {| sr_status := "success"; sr_script := "return [];"; sr_error := None |}.

Definition example_extraction : ExtractionResult :=
  {| er_status := "success"; er_data := JList []; er_data_count := 0;
     er_error := None |}.

(** The task [start_scraping_job] registers for a job. *)
Definition task_of (job_id : string) (job : ScrapingJob) : Task :=
  {| task_job_id := job_id;
     task_url := job_url job;
     task_schema_definition := job_schema_definition job |}.



(* ===================================================================== *)
(** * The websocket endpoint (app/api/websocket.py)                       *)
(* ===================================================================== *)

(** The socket after a message was handed to it. *)
Definition received (message : pydict) (ws : WebSocket) : WebSocket :=
  {| ws_open := true; ws_sent := (ws_sent ws ++ [message])%list |}.

(** The client is connected over a socket on which a send succeeds. *)
Definition socket_open (connections : gmap string WebSocket)
    (client_id : string) : bool :=
  match connections !! client_id with
  | Some ws => ws_open ws
  | None => false
  end.

(** The subscribers of a job; a job without an entry has none. *)
Definition subscribers_of (m : ConnectionManager) (job_id : UUID)
  : list string :=
  default [] (job_subscribers m !! job_id).

(** [uuid.UUID(v)]: its first step is [v.replace('urn:', '')], which a value
    that is no string does not have; a string that is no UUID raises
    [ValueError].  [uuid_of] is the parser of the library, to the canonical
    text of the UUID. *)
Definition uuid_UUID (uuid_of : string -> option UUID) (v : json)
  : PyResult UUID :=
  match v with
  | JStr s =>
      match uuid_of s with
      | Some job_id => Ok job_id
      | None => Raise (ValueError "badly formed hexadecimal UUID string")
      end
  | _ => Raise (AttributeError
                  ("'" ++ type_name v ++ "' object has no attribute 'replace'"))
  end.

(** [except ValueError:] *)
Definition is_ValueError (e : PyExc) : bool :=
  String.eqb (exc_class e) "ValueError".

Definition invalid_job_id : pydict :=
  [("type", JStr "error"); ("message", JStr "Invalid job ID format")].

Definition handle_websocket_message (rt : PyRuntime)
    (uuid_of : string -> option UUID) (message : pydict) (client_id : string)
    (m : ConnectionManager) : PyResult ConnectionManager :=
  let message_type := get message "type" in
  if eq_str message_type "subscribe_job" then
    let job_id_str := get message "job_id" in
    if truthy job_id_str then
      match uuid_UUID uuid_of job_id_str with
      | Ok job_id =>
          let m := subscribe_to_job job_id client_id m in
          Ok (send_personal_message
                [("type", JStr "subscribed");
                 ("job_id", job_id_str);
                 ("message", JStr "Subscribed to job updates")]
                client_id m)
      | Raise e =>
          if is_ValueError e
          then Ok (send_personal_message invalid_job_id client_id m)
          else Raise e
      end
    else Ok m
  else if eq_str message_type "unsubscribe_job" then
    let job_id_str := get message "job_id" in
    if truthy job_id_str then
      match uuid_UUID uuid_of job_id_str with
      | Ok job_id =>
          let m := unsubscribe_from_job job_id client_id m in
          Ok (send_personal_message
                [("type", JStr "unsubscribed");
                 ("job_id", job_id_str);
                 ("message", JStr "Unsubscribed from job updates")]
                client_id m)
      | Raise e =>
          if is_ValueError e
          then Ok (send_personal_message invalid_job_id client_id m)
          else Raise e
      end
    else Ok m
  else if eq_str message_type "ping" then
    Ok (send_personal_message
          [("type", JStr "pong"); ("timestamp", get message "timestamp")]
          client_id m)
  else
    Ok (send_personal_message
          [("type", JStr "error");
           ("message", JStr ("Unknown message type: "
                             ++ py_format rt message_type))]
          client_id m).

(** The loop of [websocket_endpoint] over the frames the client sends, each
    the value [json.loads] gives or [None] when it raises [JSONDecodeError];
    after the last frame [receive_text] raises [WebSocketDisconnect].  A
    frame that is no dict has no [get], and an exception of the handler ends
    the loop as well; both are raised before the hub was changed. *)
Fixpoint serve (rt : PyRuntime) (uuid_of : string -> option UUID)
    (frames : list (option json)) (client_id : string)
    (m : ConnectionManager) : ConnectionManager :=
  match frames with
  | [] => disconnect client_id m
  | None :: frames =>
      serve rt uuid_of frames client_id
            (send_personal_message
               [("type", JStr "error");
                ("message", JStr "Invalid JSON format")]
               client_id m)
  | Some (JDict message) :: frames =>
      match handle_websocket_message rt uuid_of message client_id m with
      | Ok m => serve rt uuid_of frames client_id m
      | Raise _ => disconnect client_id m
      end
  | Some _ :: _ => disconnect client_id m
  end.

Definition websocket_endpoint (rt : PyRuntime)
    (uuid_of : string -> option UUID) (websocket : WebSocket)
    (frames : list (option json)) (client_id : string)
    (m : ConnectionManager) : ConnectionManager :=
  serve rt uuid_of frames client_id (connect websocket client_id m).

(** A parser for the examples: the ids of the example world. *)
Definition example_uuid_of (s : string) : option UUID :=
  if String.eqb s "job-1" || String.eqb s "job-2" then Some s else None.

(** The hub [m'] holds for the client what [m] holds: its socket and the
    jobs it is subscribed to. *)
Definition same_for (client_id : string) (m m' : ConnectionManager) : Prop :=
  active_connections m' !! client_id = active_connections m !! client_id /\
  forall job_id,
    client_id ∈ subscribers_of m' job_id <-> client_id ∈ subscribers_of m job_id.

(* ===================================================================== *)
(** * ScrapingService, continued (app/services/scraping_service.py)       *)
(* ===================================================================== *)


(** [get_job]: any exception is logged and [None] is returned. *)
Definition get_job (job_id : UUID) : Coroutine (option ScrapingJob) :=
  try_except (select_job job_id) (fun e => mret None).

(** The rows of [job.extracted_data], as [selectinload] reads them. *)
Definition select_data (job_id : UUID) : Coroutine (list ExtractedData) :=
  fun w => mkRun [] (Ok (data_of w job_id)) w.

(** [select(GeneratedScript).where(GeneratedScript.job_id == job_id)] *)
Definition select_scripts (job_id : UUID) : Coroutine (list GeneratedScript) :=
  fun w => mkRun [] (Ok (scripts_of w job_id)) w.

(** [max(rows, key=lambda x: x.extracted_at)] on a list that is not empty:
    the first of the rows with the greatest time. *)
Definition latest (rows : list ExtractedData) : option ExtractedData :=
  match rows with
  | [] => None
  | row :: rows =>
      Some (fold_left (fun best x =>
                         if (extracted_at best <? extracted_at x)%nat
                         then x else best)
                      rows row)
  end.

Definition get_job_results (rt : PyRuntime) (job_id : UUID)
  : Coroutine (option pydict) :=
  try_except
    ((* Get job with extracted data *)
     job ← select_job job_id;
     match job with
     | None => mret None
     | Some job =>
         if negb (String.eqb (job_status job) "completed")
         then mret (Some [("status", JStr (job_status job));
                          ("message", JStr ("Job is in " ++ job_status job
                                            ++ " status"));
                          ("data", JNone)])
         else
           rows ← select_data job_id;
           (* Get the latest extracted data *)
           match latest rows with
           | Some latest_data =>
               mret (Some [("status", JStr "completed");
                           ("job_id", JStr job_id);
                           ("url", JStr (job_url job));
                           ("data", data latest_data);
                           ("data_count",
                            JInt (Z.of_nat (data_count latest_data)));
                           ("extracted_at",
                            JStr (isoformat rt (extracted_at latest_data)));
                           ("schema_definition",
                            JDict (job_schema_definition job))])
           | None =>
               mret (Some [("status", JStr "completed");
                           ("message", JStr "No data extracted");
                           ("data", JNone)])
           end
     end)
    (fun e => raise (Exception ("Failed to get job results: "
                                ++ str_of_exc e))).

(** [result.scalar_one_or_none()] *)
Definition scalar_one_or_none {A} (rows : list A) : PyResult (option A) :=
  match rows with
  | [] => Ok None
  | [row] => Ok (Some row)
  | _ => Raise (mkExc "MultipleResultsFound"
                      "Multiple rows were found when one or none was required")
  end.

(** [get_job_script].  The order of the rows does not matter to
    [scalar_one_or_none].  The key [script_id] of the answer, the primary
    key of the row, is not a column of the table of this model and is left
    out. *)
Definition get_job_script (rt : PyRuntime) (job_id : UUID)
  : Coroutine (option pydict) :=
  try_except
    (rows ← select_scripts job_id;
     script ← await (scalar_one_or_none rows);
     match script with
     | None => mret None
     | Some script =>
         mret (Some [("job_id", JStr (script_job_id script));
                     ("script_content", JStr (script_content script));
                     ("script_type", JStr (script_type script));
                     ("created_at",
                      JStr (isoformat rt (script_created_at script)))])
     end)
    (fun e => raise (Exception ("Failed to get job script: "
                                ++ str_of_exc e))).

(** [cancel_job].  The tasks of the registry have not started in this
    model: to cancel one is to take it out.  [del self.active_jobs[job_id]]
    stands under [if job_id in self.active_jobs], and [delete] on the map
    does nothing for an id that is not there. *)
Definition cancel_job (rt : PyRuntime) (job_id : UUID) : Coroutine pydict :=
  try_except
    ((* Cancel the async task if it's running *)
     effect (with_active_jobs (delete job_id));;
     (* Update job status *)
     _update_job_status rt job_id "cancelled" None;;
     mret [("status", JStr "cancelled");
           ("job_id", JStr job_id);
           ("message", JStr "Job cancelled successfully")])
    (fun e => raise (Exception ("Failed to cancel job: " ++ str_of_exc e))).

(** The world after [await db.delete(job); await db.commit()]: the scripts
    and the results of the job go with it ([cascade="all, delete-orphan"]). *)
Definition job_deleted (job_id : UUID) (w : World) : World :=
  {| scraping_jobs := delete job_id (scraping_jobs w);
     generated_scripts :=
       filter (fun s => script_job_id s <> job_id) (generated_scripts w);
     extracted_data :=
       filter (fun d => data_job_id d <> job_id) (extracted_data w);
     connection_manager := connection_manager w;
     active_jobs := active_jobs w;
     clock := clock w |}.

Definition delete_job (job_id : UUID) : Coroutine pydict :=
  try_except
    ((* Cancel if running *)
     effect (with_active_jobs (delete job_id));;
     (* Delete job (cascading will delete related records) *)
     job ← select_job job_id;
     match job with
     | None => raise (Exception ("Job " ++ job_id ++ " not found"))
     | Some job =>
         effect (job_deleted job_id);;
         mret [("status", JStr "deleted");
               ("job_id", JStr job_id);
               ("message", JStr "Job deleted successfully")]
     end)
    (fun e => raise (Exception ("Failed to delete job: " ++ str_of_exc e))).

(** [get_active_jobs_count] *)
Definition get_active_jobs_count (w : World) : nat := size (active_jobs w).

(** The rows of [extracted_data] were written before the clock reading of
    the world. *)
Definition results_in_the_past (w : World) : Prop :=
  Forall (fun d => (extracted_at d < clock w)%nat) (extracted_data w).

(* ===================================================================== *)
(** * Schema templates (app/models/scraping.py)                           *)
(* ===================================================================== *)

(** A template of [COMMON_SCHEMAS]: an array schema whose items name each
    field with the word [string]. *)
Definition template (field_names : list string) : pydict :=
  [("type", JStr "array");
   ("items", JDict (map (fun name => (name, JStr "string")) field_names))].

Definition COMMON_SCHEMAS : list (string * pydict) :=
  [("news_articles",
    template ["title"; "content"; "author"; "date"; "url"]);
   ("product_listings",
    template ["name"; "price"; "description"; "image"; "rating"]);
   ("social_media_posts",
    template ["content"; "author"; "timestamp"; "likes"; "shares"]);
   ("job_listings",
    template ["title"; "company"; "location"; "salary"; "description";
              "requirements"])].

(* ===================================================================== *)
(** * Cleaning of extracted data (app/services/playwright_service.py)     *)
(* ===================================================================== *)

(** [k in d] *)
Definition has_key (k : string) (d : pydict) : bool :=
  match dict_lookup d k with
  | Some _ => true
  | None => false
  end.

(** What Python's text functions do is left open: [strip] is [str.strip()],
    [collapse] is [re.sub(r'\s+', ' ', _)]. *)
Section Cleaning.
Variables strip collapse : string -> string.

(** [[v.strip() if isinstance(v, str) else v for v in value if v]] *)
Definition clean_list (value : list json) : list json :=
  map (fun v => match v with
                | JStr s => JStr (strip s)
                | _ => v
                end)
      (filter (fun v => truthy v = true) value).

(** One round of the loop of [_clean_data_item]. *)
Definition clean_step (cleaned_item : pydict) (item : string * json)
  : pydict :=
  let '(key, value) := item in
  match value with
  | JNone => cleaned_item
  | JStr s =>
      (* Clean string values; remove extra whitespace *)
      let cleaned_value := collapse (strip s) in
      if negb (String.eqb cleaned_value EmptyString)
      then dict_set cleaned_item key (JStr cleaned_value)
      else cleaned_item
  | JList l =>
      (* Clean list values *)
      match clean_list l with
      | [] => cleaned_item
      | cleaned_list => dict_set cleaned_item key (JList cleaned_list)
      end
  | _ =>
      (* Keep other types as-is *)
      dict_set cleaned_item key value
  end.

Definition _clean_data_item (item : json) : json :=
  match item with
  | JDict d =>
      match fold_left clean_step d [] with
      | [] => JNone
      | cleaned_item => JDict cleaned_item
      end
  | _ => item
  end.

(** [_clean_extracted_data]; nothing in its [try] block raises. *)
Definition _clean_extracted_data (data : json) (schema : pydict) : json :=
  if negb (truthy data)
     || match data with
        | JDict d => has_key "error" d
        | _ => false
        end
  then data
  else
    match data with
    | JList l =>
        (* If data is a list, clean each item; only add non-empty items *)
        JList (filter (fun cleaned_item => truthy cleaned_item = true)
                      (map _clean_data_item l))
    | JDict _ => _clean_data_item data
    | _ => data
    end.
End Cleaning.

Definition _count_extracted_items (data : json) : nat :=
  match data with
  | JList l => length l
  | JDict d => if negb (has_key "error" d) then 1 else 0
  | _ => 0
  end.

(** A value that [_clean_data_item] does not keep under a key. *)
Definition blank (v : json) : bool :=
  match v with
  | JNone => true
  | JStr s => String.eqb s EmptyString
  | JList [] => true
  | _ => false
  end.

(** ASCII text functions for the examples: the space is the only blank. *)
Fixpoint strip_left (s : string) : string :=
  match s with
  | String c s' => if Ascii.eqb c " " then strip_left s' else s
  | EmptyString => EmptyString
  end.

Definition example_strip (s : string) : string :=
  String.rev (strip_left (String.rev (strip_left s))).

(** * The analyzer *)

(** ** Python results *)

Lemma bind_Ok {A B} (r : PyResult A) (k : A -> PyResult B) (b : B) :
  r ≫= k = Ok b -> exists a, r = Ok a /\ k a = Ok b.
Proof. destruct r as [a|e]; cbn; [eauto | discriminate]. Qed.

Lemma bind_Raise {A B} (r : PyResult A) (k : A -> PyResult B) (e : PyExc) :
  r = Raise e -> r ≫= k = Raise e.
Proof. intros ->. reflexivity. Qed.

(** ** Rationals *)





(** ** Factor scores *)















(** ** The integer part *)



(** ** The interaction check *)

Lemma requires_user_interaction_spec (html_content : string)
    (schema_definition : pydict) (domain : string) :
  _requires_user_interaction html_content schema_definition domain
  = interaction_indicator html_content domain.
Proof.
  unfold _requires_user_interaction, interaction_indicator. cbv zeta.
  fold auth_indicators pagination_indicators modal_indicators.
  destruct (any_in auth_indicators _); [reflexivity|].
  destruct (any_in pagination_indicators _); [reflexivity|].
  destruct (any_in modal_indicators _); [reflexivity|].
  cbn [orb]. unfold any_in. fold interaction_domains.
  destruct (existsb _ interaction_domains); reflexivity.
Qed.

(** ** The factors *)


(** What a completed [try] block has computed. *)
Lemma analysis_try_inv (rt : PyRuntime) (now : nat) (url html_content : string)
    (schema_definition : pydict) (page_metrics : option pydict) (a : Analysis) :
  analysis_try rt now url html_content schema_definition page_metrics = Ok a ->
  exists netloc zod hints factors,
    urlparse_netloc rt url = Ok netloc /\
    _generate_zod_validation rt now schema_definition = Ok zod /\
    _generate_extraction_hints schema_definition html_content = Ok hints /\
    complexity_factors rt (lower netloc) html_content schema_definition
                       page_metrics = Ok factors /\
    let score := (sum_scores factors / inject_Z (Z.of_nat (length factors)))%Q in
    let interaction := interaction_indicator html_content (lower netloc) in
    complexity_score a = score /\
    requires_interaction a = interaction /\
    method a = (if interaction then "playwright"
                else if Qltb 0.6 score then "playwright" else "javascript") /\
    estimated_load_time a
    = (if Qltb 0.6 score then Z.min 90 (py_int (10 + score * 80))
       else Z.min 15 (py_int (3 + score * 12))) /\
    zod_validation a = zod.
Proof.
  unfold analysis_try. cbv zeta. intros H.
  apply bind_Ok in H as (netloc & Hn & H).
  apply bind_Ok in H as (zod & Hz & H).
  apply bind_Ok in H as (hints & Hh & H).
  apply bind_Ok in H as (factors & Hf & H).
  exists netloc, zod, hints, factors. repeat (split; [assumption|]).
  rewrite requires_user_interaction_spec in H.
  destruct (Qltb 0.6 _); injection H as <-; cbn;
    destruct (interaction_indicator _ _); repeat split; reflexivity.
Qed.




(** Whether the validation schema can be built does not depend on the
    clock. *)
Lemma zod_validation_clock (rt : PyRuntime) (now now' : nat)
    (schema_definition : pydict) (e : PyExc) :
  _generate_zod_validation rt now schema_definition = Raise e ->
  _generate_zod_validation rt now' schema_definition = Raise e.
Proof.
  unfold _generate_zod_validation. cbv zeta.
  destruct (items _) as [field_items|e0]; cbn; [|auto].
  destruct (fold_left _ _ _); cbn; [discriminate | auto].
Qed.

(** When the validation schema can be built, the analyzer returns: the
    analysis of the [try] block, or else the fallback. *)
Lemma analyzer_returns_when_zod_does (rt : PyRuntime) (now : nat)
    (url html_content : string) (schema_definition : pydict)
    (page_metrics : option pydict) (zod : ZodValidation) :
  _generate_zod_validation rt (S now) schema_definition = Ok zod ->
  exists a,
    analyze_extraction_requirements rt now url html_content schema_definition
                                    page_metrics = Ok a /\
    forall e,
      analysis_try rt now url html_content schema_definition page_metrics
      = Raise e ->
      method a = "playwright" /\ complexity_score a = 0.8%Q /\
      reasons a = ["Analysis error, defaulting to Playwright: "
                   ++ str_of_exc e] /\
      estimated_load_time a = 30%Z /\ requires_interaction a = false.
Proof.
  intros Hz. unfold analyze_extraction_requirements.
  destruct (analysis_try _ _ _ _ _ _) as [a|e].
  - exists a. split; [reflexivity | discriminate].
  - rewrite Hz. cbn. eexists. split; [reflexivity|].
    intros e' [= <-]. cbn. repeat split; reflexivity.
Qed.





(** C6, at an input where the code leaves the stated range.  A page that
    mentions a login, on a plain domain and with an empty schema, scores 0;
    the interaction check turns the method to playwright and the estimate
    stays the 3 seconds of the javascript branch, below the 10 to 90 seconds
    of the playwright branch. *)
Theorem override_keeps_light_estimate :
  exists a,
    analyze_extraction_requirements
      example_runtime 0 "https://example.com/account"
      "<html><a href=/login>Sign in</a></html>" [] None = Ok a /\
    method a = "playwright" /\
    requires_interaction a = true /\
    (complexity_score a == 0)%Q /\
    estimated_load_time a = 3%Z.
Proof.
  eexists. split; [vm_compute; reflexivity|].
  repeat split; reflexivity.
Qed.

(** C7, at an input where the analyzer raises.  With a schema whose [items]
    is a list, [_generate_zod_validation] raises in the [try] block and
    again in the handler that builds the fallback, so the exception reaches
    the caller; this holds for every url, page, metrics and runtime. *)
Theorem fallback_reraises_on_list_items
    (rt : PyRuntime) (now : nat) (url html_content : string)
    (page_metrics : option pydict) :
  analyze_extraction_requirements rt now url html_content tuple_schema
                                  page_metrics
  = Raise (AttributeError "'list' object has no attribute 'items'").
Proof.
  unfold analyze_extraction_requirements.
  destruct (analysis_try _ _ _ _ _ _) as [a|e] eqn:E.
  - apply analysis_try_inv in E as (? & ? & ? & ? & _ & Hz & _).
    discriminate Hz.
  - reflexivity.
Qed.

(** * The connection hub *)

(** ** Lists of subscribers *)

Lemma list_in_spec (x : string) (l : list string) :
  list_in x l = true <-> x ∈ l.
Proof.
  unfold list_in. induction l as [|y l IH]; cbn.
  - split; [discriminate | intros H; inversion H].
  - rewrite orb_true_iff, IH, elem_of_cons, String.eqb_eq. reflexivity.
Qed.

Lemma list_remove_elem (x y : string) (l : list string) :
  y ∈ list_remove x l -> y ∈ l.
Proof.
  induction l as [|z l IH]; cbn; [auto|].
  destruct (String.eqb z x).
  - intros H. apply elem_of_cons. auto.
  - rewrite !elem_of_cons. intros [->|H]; auto.
Qed.

Lemma list_remove_NoDup (x : string) (l : list string) :
  NoDup l -> NoDup (list_remove x l).
Proof.
  induction 1 as [|z l Hz Hl IH]; cbn; [constructor|].
  destruct (String.eqb z x); [exact Hl|].
  constructor; [|exact IH]. intros H. apply Hz.
  exact (list_remove_elem _ _ _ H).
Qed.

Lemma list_remove_gone (x : string) (l : list string) :
  NoDup l -> x ∉ list_remove x l.
Proof.
  induction 1 as [|z l Hz Hl IH]; cbn; [apply not_elem_of_nil|].
  destruct (String.eqb z x) eqn:E.
  - apply String.eqb_eq in E. subst z. exact Hz.
  - apply String.eqb_neq in E. rewrite elem_of_cons. intros [->|H]; auto.
Qed.

Lemma drop_subscriber_Some (c : string) (l l' : list string) :
  NoDup l -> drop_subscriber c l = Some l' -> NoDup l' /\ c ∉ l'.
Proof.
  unfold drop_subscriber. intros Hl.
  destruct (list_in c l) eqn:E.
  - pose proof (list_remove_NoDup c l Hl) as Hn.
    pose proof (list_remove_gone c l Hl) as Hg.
    destruct (list_remove c l); [discriminate|].
    intros [= <-]. auto.
  - intros [= <-]. split; [exact Hl|].
    intros H. apply list_in_spec in H. congruence.
Qed.

(** ** The operations keep every client once in a list *)

Lemma new_manager_nodup : subscribers_nodup new_manager.
Proof. intros j l H. cbn in H. rewrite lookup_empty in H. discriminate. Qed.

Lemma disconnect_nodup (c : string) (m : ConnectionManager) :
  subscribers_nodup m -> subscribers_nodup (disconnect c m).
Proof.
  intros Hm j l H. cbn in H. rewrite lookup_omap in H.
  destruct (job_subscribers m !! j) as [l0|] eqn:E; [|discriminate].
  cbn in H. exact (proj1 (drop_subscriber_Some _ _ _ (Hm _ _ E) H)).
Qed.

Lemma subscribe_nodup (j c : string) (m : ConnectionManager) :
  subscribers_nodup m -> subscribers_nodup (subscribe_to_job j c m).
Proof.
  intros Hm j' l H. cbn in H.
  destruct (decide (j = j')) as [<-|Hne].
  - rewrite lookup_insert_eq in H. injection H as <-.
    assert (Hl : NoDup (default [] (job_subscribers m !! j))).
    { destruct (job_subscribers m !! j) eqn:E; cbn; [eauto | constructor]. }
    destruct (list_in c _) eqn:E; [exact Hl|].
    apply NoDup_app. split; [exact Hl|]. split; [|apply NoDup_singleton].
    intros x Hx Hx'. apply list_elem_of_singleton in Hx'. subst x.
    apply list_in_spec in Hx. congruence.
  - rewrite lookup_insert_ne in H by exact Hne. eauto.
Qed.

Lemma unsubscribe_nodup (j c : string) (m : ConnectionManager) :
  subscribers_nodup m -> subscribers_nodup (unsubscribe_from_job j c m).
Proof.
  intros Hm. unfold unsubscribe_from_job.
  destruct (job_subscribers m !! j) as [l0|] eqn:E; [|exact Hm].
  destruct (list_in c l0); [|exact Hm].
  intros j' l H. cbn in H.
  pose proof (list_remove_NoDup c l0 (Hm _ _ E)) as Hn.
  destruct (list_remove c l0) as [|x rest].
  - destruct (decide (j = j')) as [<-|Hne].
    + rewrite lookup_delete_eq in H. discriminate.
    + rewrite lookup_delete_ne in H by exact Hne. eauto.
  - destruct (decide (j = j')) as [<-|Hne].
    + rewrite lookup_insert_eq in H. injection H as <-. exact Hn.
    + rewrite lookup_insert_ne in H by exact Hne. eauto.
Qed.

Lemma send_personal_message_nodup (msg : pydict) (c : string)
    (m : ConnectionManager) :
  subscribers_nodup m -> subscribers_nodup (send_personal_message msg c m).
Proof.
  intros Hm. unfold send_personal_message.
  destruct (active_connections m !! c); [|exact Hm].
  destruct (send_text _ _); [exact Hm | apply disconnect_nodup, Hm].
Qed.

Lemma job_cleanup_NoDup (disconnected subscribers : list string) :
  NoDup subscribers ->
  NoDup (fold_left job_cleanup_step disconnected subscribers).
Proof.
  revert subscribers. induction disconnected as [|c l IH]; intros s Hs; cbn.
  - exact Hs.
  - apply IH. unfold job_cleanup_step.
    destruct (list_in c s); [apply list_remove_NoDup|]; exact Hs.
Qed.

Lemma broadcast_job_update_nodup (j : string) (msg : pydict)
    (m : ConnectionManager) :
  subscribers_nodup m -> subscribers_nodup (broadcast_job_update j msg m).
Proof.
  intros Hm. unfold broadcast_job_update.
  destruct (job_subscribers m !! j) as [l0|] eqn:E; [|exact Hm].
  destruct (fold_left _ l0 _) as [connections disconnected].
  intros j' l H. cbn in H.
  destruct (decide (j = j')) as [<-|Hne].
  - rewrite lookup_insert_eq in H. injection H as <-.
    apply job_cleanup_NoDup. eauto.
  - rewrite lookup_insert_ne in H by exact Hne. eauto.
Qed.

Lemma disconnect_all_nodup (clients : list string) (m : ConnectionManager) :
  subscribers_nodup m ->
  subscribers_nodup (fold_left (fun m c => disconnect c m) clients m).
Proof.
  revert m. induction clients as [|c l IH]; intros m Hm; cbn; [exact Hm|].
  apply IH, disconnect_nodup, Hm.
Qed.

Lemma broadcast_to_all_nodup (msg : pydict) (m : ConnectionManager) :
  subscribers_nodup m -> subscribers_nodup (broadcast_to_all msg m).
Proof.
  intros Hm. unfold broadcast_to_all. apply disconnect_all_nodup. exact Hm.
Qed.

Lemma reachable_nodup (m : ConnectionManager) :
  reachable m -> subscribers_nodup m.
Proof.
  induction 1.
  - apply new_manager_nodup.
  - exact IHreachable.
  - apply disconnect_nodup. assumption.
  - apply subscribe_nodup. assumption.
  - apply unsubscribe_nodup. assumption.
  - apply send_personal_message_nodup. assumption.
  - apply broadcast_job_update_nodup. assumption.
  - apply broadcast_to_all_nodup. assumption.
  - exact IHreachable.
Qed.

(** C9.  In every state the hub can reach, after [disconnect c] the client
    [c] is no longer a live connection, no list of subscribers holds [c],
    and a list that held [c] is deleted when [c] was its only member and is
    otherwise kept without [c]. *)
Theorem disconnect_leaves_no_reference (m : ConnectionManager) (c : string) :
  reachable m ->
  active_connections (disconnect c m) !! c = None /\
  (forall job_id subscribers,
     job_subscribers (disconnect c m) !! job_id = Some subscribers ->
     c ∉ subscribers) /\
  (forall job_id subscribers,
     job_subscribers m !! job_id = Some subscribers -> c ∈ subscribers ->
     job_subscribers (disconnect c m) !! job_id
     = match list_remove c subscribers with
       | [] => None
       | remaining => Some remaining
       end).
Proof.
  intros Hr. pose proof (reachable_nodup m Hr) as Hm. split; [|split].
  - cbn. apply lookup_delete_eq.
  - intros j l H. cbn in H. rewrite lookup_omap in H.
    destruct (job_subscribers m !! j) as [l0|] eqn:E; [|discriminate].
    cbn in H. exact (proj2 (drop_subscriber_Some _ _ _ (Hm _ _ E) H)).
  - intros j l E Hc. cbn. rewrite lookup_omap, E. cbn.
    unfold drop_subscriber. apply list_in_spec in Hc. rewrite Hc. reflexivity.
Qed.

Lemma disconnect_leaves_no_reference_witness :
  let m := subscribe_to_job "job-2" "alice"
             (subscribe_to_job "job-1" "bob"
                (subscribe_to_job "job-1" "alice"
                   (connect (mkWebSocket true []) "alice" new_manager))) in
  reachable m /\
  active_connections (disconnect "alice" m) !! "alice" = None /\
  (forall job_id subscribers,
     job_subscribers (disconnect "alice" m) !! job_id = Some subscribers ->
     "alice" ∉ subscribers) /\
  (forall job_id subscribers,
     job_subscribers m !! job_id = Some subscribers -> "alice" ∈ subscribers ->
     job_subscribers (disconnect "alice" m) !! job_id
     = match list_remove "alice" subscribers with
       | [] => None
       | remaining => Some remaining
       end).
Proof.
  intros m.
  assert (Hr : reachable m).
  { apply reach_subscribe, reach_subscribe, reach_subscribe, reach_connect,
      reach_new. }
  split; [exact Hr|].
  apply (disconnect_leaves_no_reference m "alice"). exact Hr.
Defined.

(** * The scraping service *)

(** ** Runs of coroutines *)

Section Runs.
Context {A B : Type}.

Lemma runs_bind_ok (c : Coroutine A) (k : A -> Coroutine B) w s1 a w1 s2 r w2 :
  runs c w s1 (Ok a) w1 -> runs (k a) w1 s2 r w2 ->
  runs (c ≫= k) w (s1 ++ s2) r w2.
Proof.
  unfold runs, mbind, Coroutine_bind. intros -> H. cbn. rewrite H.
  reflexivity.
Qed.

Lemma runs_bind_raise (c : Coroutine A) (k : A -> Coroutine B) w s e w1 :
  runs c w s (Raise e) w1 -> runs (c ≫= k) w s (Raise e) w1.
Proof. unfold runs, mbind, Coroutine_bind. intros ->. reflexivity. Qed.

Lemma runs_try_except_ok (c : Coroutine A) (h : PyExc -> Coroutine A)
    w s a w1 :
  runs c w s (Ok a) w1 -> runs (try_except c h) w s (Ok a) w1.
Proof. unfold runs, try_except. intros ->. reflexivity. Qed.

Lemma runs_try_except_raise (c : Coroutine A) (h : PyExc -> Coroutine A)
    w s1 e w1 s2 r w2 :
  runs c w s1 (Raise e) w1 -> runs (h e) w1 s2 r w2 ->
  runs (try_except c h) w (s1 ++ s2) r w2.
Proof.
  unfold runs, try_except. intros -> H. cbn. rewrite H. reflexivity.
Qed.

Lemma runs_try_finally (c : Coroutine A) (f : Coroutine unit)
    w s1 r w1 s2 w2 :
  runs c w s1 r w1 -> runs f w1 s2 (Ok tt) w2 ->
  runs (try_finally c f) w (s1 ++ s2) r w2.
Proof.
  unfold runs, try_finally. intros -> H. cbn. rewrite H. reflexivity.
Qed.
End Runs.

Lemma runs_cast {A} (c : Coroutine A) w s s' r w' :
  s = s' -> runs c w s r w' -> runs c w s' r w'.
Proof. intros ->. auto. Qed.

Lemma runs_ret {A} (a : A) w : runs (mret a) w [] (Ok a) w.
Proof. reflexivity. Qed.

Lemma runs_raise {A} (e : PyExc) w : runs (@raise A e) w [] (Raise e) w.
Proof. reflexivity. Qed.

Lemma runs_await {A} (r : PyResult A) w : runs (await r) w [] r w.
Proof. reflexivity. Qed.

Lemma runs_effect (f : World -> World) w : runs (effect f) w [f w] (Ok tt) (f w).
Proof. reflexivity. Qed.

Lemma runs_utcnow w : runs utcnow w [] (Ok (clock w)) (tick w).
Proof. reflexivity. Qed.

Lemma runs_log rt job_id stage message w :
  runs (_log_job_progress rt job_id stage message) w
       [logged rt job_id stage message w] (Ok tt)
       (logged rt job_id stage message w).
Proof. reflexivity. Qed.

Lemma runs_update_status rt job_id status error_message w :
  runs (_update_job_status rt job_id status error_message) w
       [status_committed job_id status error_message w;
        status_announced rt job_id status error_message
          (status_committed job_id status error_message w)]
       (Ok tt)
       (status_announced rt job_id status error_message
          (status_committed job_id status error_message w)).
Proof.
  unfold _update_job_status, status_committed.
  destruct (is_terminal status); reflexivity.
Qed.

Lemma runs_save_script job_id content (k : Coroutine unit) w s r w' :
  runs k (script_saved job_id content w) s r w' ->
  runs (created_at ← utcnow;
        effect (with_scripts (fun scripts =>
                  scripts ++ [{| script_job_id := job_id;
                                 script_content := content;
                                 script_type := "playwright";
                                 script_created_at := created_at |}])%list);;
        k)
       w (script_saved job_id content w :: s) r w'.
Proof.
  intros H. eapply (runs_bind_ok _ _ _ []); [apply runs_utcnow|].
  eapply (runs_bind_ok _ _ _ [_] tt); [|exact H]. reflexivity.
Qed.

Lemma runs_save_data job_id value count (k : Coroutine unit) w s r w' :
  runs k (data_saved job_id value count w) s r w' ->
  runs (now ← utcnow;
        effect (with_data (fun rows =>
                  rows ++ [{| data_job_id := job_id;
                              data := value;
                              extracted_at := now;
                              data_count := count |}])%list);;
        k)
       w (data_saved job_id value count w :: s) r w'.
Proof.
  intros H. eapply (runs_bind_ok _ _ _ []); [apply runs_utcnow|].
  eapply (runs_bind_ok _ _ _ [_] tt); [|exact H]. reflexivity.
Qed.

Ltac run_step :=
  lazymatch goal with
  | |- runs (_log_job_progress _ _ _ _ ≫= _) _ _ _ _ =>
      eapply (runs_bind_ok _ _ _ [_]); [apply runs_log|]
  | |- runs (await (Ok _) ≫= _) _ _ _ _ =>
      eapply (runs_bind_ok _ _ _ []); [apply runs_await|]
  | |- runs (await (Raise _) ≫= _) _ _ _ _ =>
      apply runs_bind_raise, runs_await
  | |- runs (mret tt ≫= _) _ _ _ _ =>
      eapply (runs_bind_ok _ _ _ []); [apply runs_ret|]
  | |- runs (raise _ ≫= _) _ _ _ _ =>
      apply runs_bind_raise, runs_raise
  | |- runs (utcnow ≫= (fun _ => effect (with_scripts _) ≫= _)) _ _ _ _ =>
      apply runs_save_script
  | |- runs (utcnow ≫= (fun _ => effect (with_data _) ≫= _)) _ _ _ _ =>
      apply runs_save_data
  | |- runs (_update_job_status _ _ _ _) _ _ _ _ =>
      apply runs_update_status
  end; cbv beta.

Ltac run_pipeline :=
  try unfold pipeline;
  try lazymatch goal with
      | |- ?c ?w = mkRun ?s ?r ?w' => change (runs c w s r w')
      end;
  repeat run_step.

(** The [try] block runs as [attempt] spells it out. *)
Lemma pipeline_run rt so eo job_id url schema_definition w :
  pipeline rt so eo job_id url schema_definition w = attempt rt so eo job_id w.
Proof.
  unfold attempt. cbv zeta.
  destruct so as [sr|e]; [|run_pipeline].
  destruct (String.eqb (sr_status sr) "success") eqn:Es; cbn [negb].
  2:{ run_pipeline. rewrite Es. cbn [negb]. run_pipeline. }
  destruct eo as [er|e].
  2:{ run_pipeline. rewrite Es. cbn [negb]. run_pipeline. }
  destruct (String.eqb (er_status er) "success") eqn:Ee; cbn [negb].
  2:{ run_pipeline. rewrite Es. cbn [negb]. run_pipeline.
      rewrite Ee. cbn [negb]. run_pipeline. }
  run_pipeline. rewrite Es. cbn [negb]. run_pipeline.
  rewrite Ee. cbn [negb]. run_pipeline.
Qed.

(** [_execute_scraping_job] runs as [execution] spells it out. *)
Lemma execute_scraping_job_run rt so eo job_id url schema_definition w :
  _execute_scraping_job rt so eo job_id url schema_definition w
  = execution rt so eo job_id w.
Proof.
  unfold execution. cbv zeta.
  pose proof (pipeline_run rt so eo job_id url schema_definition w) as Hp.
  destruct (attempt rt so eo job_id w) as [s [[]|e] w0]; cbn [outcome seen final].
  - unfold _execute_scraping_job.
    eapply runs_try_finally; [|apply runs_effect].
    apply runs_try_except_ok. exact Hp.
  - unfold _execute_scraping_job, failed_run. cbv zeta.
    eapply (runs_cast _ _ ((s ++ [_; _; _]) ++ [_]));
      [rewrite <- app_assoc; reflexivity|].
    eapply runs_try_finally; [|apply runs_effect].
    eapply runs_try_except_raise; [exact Hp|].
    eapply (runs_bind_ok _ _ _ [_]); [apply runs_log|].
    apply runs_update_status.
Qed.

(** ** Broadcasts *)

Lemma disconnect_all_lookup (clients : list string) (m : ConnectionManager)
    (c : string) :
  c ∉ clients ->
  active_connections (fold_left (fun m c' => disconnect c' m) clients m) !! c
  = active_connections m !! c.
Proof.
  revert m. induction clients as [|c' l IH]; intros m Hc; cbn; [reflexivity|].
  apply not_elem_of_cons in Hc as [Hne Hc].
  rewrite IH by exact Hc. cbn. apply lookup_delete_ne. congruence.
Qed.

Lemma open_client_not_failed (msg : pydict)
    (connections : gmap string WebSocket) (c : string) (sent : list pydict) :
  connections !! c = Some {| ws_open := true; ws_sent := sent |} ->
  c ∉ failed_clients msg connections.
Proof.
  intros Hc Hin. unfold failed_clients in Hin.
  apply list_elem_of_fmap in Hin as ([c' ws] & -> & Hin).
  apply list_elem_of_filter in Hin as [Hf Hin].
  apply elem_of_map_to_list in Hin. cbn in *.
  rewrite Hc in Hin. injection Hin as <-. discriminate Hf.
Qed.

(** A broadcast reaches every client whose socket is open, subscribed to a
    job or not. *)
Lemma broadcast_to_all_open (msg : pydict) (m : ConnectionManager)
    (c : string) (sent : list pydict) :
  active_connections m !! c = Some {| ws_open := true; ws_sent := sent |} ->
  active_connections (broadcast_to_all msg m) !! c
  = Some {| ws_open := true; ws_sent := sent ++ [msg] |}.
Proof.
  intros Hc. unfold broadcast_to_all.
  rewrite disconnect_all_lookup
    by exact (open_client_not_failed _ _ _ _ Hc).
  cbn. rewrite lookup_fmap, Hc. reflexivity.
Qed.


Lemma status_announced_open rt job_id status error_message w c sent :
  open_client w c sent ->
  open_client (status_announced rt job_id status error_message w) c
              (sent ++ [status_message rt job_id status error_message (clock w)]).
Proof. apply broadcast_to_all_open. Qed.



Lemma status_committed_open job_id status error_message w c sent :
  open_client w c sent ->
  open_client (status_committed job_id status error_message w) c sent.
Proof.
  intros H. unfold status_committed. destruct (is_terminal status); exact H.
Qed.






(** ** What the worlds of a run hold *)

Lemma status_committed_terminal job_id status error_message w :
  is_terminal status = true ->
  status_committed job_id status error_message w
  = with_jobs (alter (apply_update status (Some (clock w)) error_message)
                     job_id)
              (tick w).
Proof. unfold status_committed. intros ->. reflexivity. Qed.

Lemma status_of_committed job_id status error_message w :
  status_of (status_committed job_id status error_message w) job_id
  = (fun _ => status) <$> status_of w job_id.
Proof.
  unfold status_committed, status_of.
  destruct (is_terminal status); cbn; rewrite lookup_alter_eq;
    destruct (scraping_jobs w !! job_id); reflexivity.
Qed.

Lemma scripts_of_saved job_id content w :
  scripts_of (script_saved job_id content w) job_id <> [].
Proof.
  unfold scripts_of, script_saved. cbn. rewrite filter_app.
  rewrite (filter_cons_True _ _ []) by reflexivity.
  intros H. apply app_eq_nil in H as [_ H]. discriminate.
Qed.

Lemma data_of_saved job_id value count w :
  data_of (data_saved job_id value count w) job_id <> [].
Proof.
  unfold data_of, data_saved. cbn. rewrite filter_app.
  rewrite (filter_cons_True _ _ []) by reflexivity.
  intros H. apply app_eq_nil in H as [_ H]. discriminate.
Qed.

Lemma filter_app_nonempty {X} (P : X -> Prop) `{forall x, Decision (P x)}
    (l l' : list X) :
  filter P l <> [] -> filter P (l ++ l')%list <> [].
Proof.
  rewrite filter_app. intros Hl H'. apply app_eq_nil in H' as [H' _]. auto.
Qed.

Section Records.
Variable job_id : string.

Lemma scripts_logged rt j stage message w :
  scripts_of w job_id <> [] ->
  scripts_of (logged rt j stage message w) job_id <> [].
Proof. auto. Qed.

Lemma scripts_data_saved j value count w :
  scripts_of w job_id <> [] ->
  scripts_of (data_saved j value count w) job_id <> [].
Proof. auto. Qed.

Lemma data_logged rt j stage message w :
  data_of w job_id <> [] ->
  data_of (logged rt j stage message w) job_id <> [].
Proof. auto. Qed.

Lemma records_logged rt j stage message w :
  completed_has_records job_id w ->
  completed_has_records job_id (logged rt j stage message w).
Proof. auto. Qed.

Lemma records_announced rt j status error_message w :
  completed_has_records job_id w ->
  completed_has_records job_id
    (status_announced rt j status error_message w).
Proof. auto. Qed.

Lemma records_unregistered j w :
  completed_has_records job_id w ->
  completed_has_records job_id (with_active_jobs (delete j) w).
Proof. auto. Qed.

Lemma records_script_saved j content w :
  completed_has_records job_id w ->
  completed_has_records job_id (script_saved j content w).
Proof.
  intros H Hs. destruct (H Hs) as [H1 H2]. split; [|exact H2].
  unfold scripts_of, script_saved. cbn. apply filter_app_nonempty. exact H1.
Qed.

Lemma records_data_saved j value count w :
  completed_has_records job_id w ->
  completed_has_records job_id (data_saved j value count w).
Proof.
  intros H Hs. destruct (H Hs) as [H1 H2]. split; [exact H1|].
  unfold data_of, data_saved. cbn. apply filter_app_nonempty. exact H2.
Qed.

Lemma records_failed error_message w :
  completed_has_records job_id
    (status_committed job_id "failed" error_message w).
Proof.
  intros Hs. rewrite status_of_committed in Hs.
  destruct (status_of w job_id); discriminate.
Qed.

Lemma records_completed w :
  scripts_of w job_id <> [] -> data_of w job_id <> [] ->
  completed_has_records job_id
    (status_committed job_id "completed" None w).
Proof. intros H1 H2 _. split; assumption. Qed.
End Records.

Section Frames.
Variable job_id : string.

Lemma scripts_announced rt j status error_message w :
  scripts_of w job_id <> [] ->
  scripts_of (status_announced rt j status error_message w) job_id <> [].
Proof. auto. Qed.

Lemma scripts_unregistered j w :
  scripts_of w job_id <> [] ->
  scripts_of (with_active_jobs (delete j) w) job_id <> [].
Proof. auto. Qed.

Lemma scripts_committed j status error_message w :
  scripts_of w job_id <> [] ->
  scripts_of (status_committed j status error_message w) job_id <> [].
Proof. unfold status_committed. destruct (is_terminal status); auto. Qed.

Lemma data_announced rt j status error_message w :
  data_of w job_id <> [] ->
  data_of (status_announced rt j status error_message w) job_id <> [].
Proof. auto. Qed.

Lemma data_unregistered j w :
  data_of w job_id <> [] ->
  data_of (with_active_jobs (delete j) w) job_id <> [].
Proof. auto. Qed.

Lemma data_committed j status error_message w :
  data_of w job_id <> [] ->
  data_of (status_committed j status error_message w) job_id <> [].
Proof. unfold status_committed. destruct (is_terminal status); auto. Qed.

Lemma status_of_logged rt j stage message w :
  status_of (logged rt j stage message w) job_id = status_of w job_id.
Proof. reflexivity. Qed.

Lemma status_of_script_saved j content w :
  status_of (script_saved j content w) job_id = status_of w job_id.
Proof. reflexivity. Qed.

Lemma status_of_data_saved j value count w :
  status_of (data_saved j value count w) job_id = status_of w job_id.
Proof. reflexivity. Qed.

Lemma status_of_announced rt j status error_message w :
  status_of (status_announced rt j status error_message w) job_id
  = status_of w job_id.
Proof. reflexivity. Qed.

Lemma status_of_unregistered j w :
  status_of (with_active_jobs (delete j) w) job_id = status_of w job_id.
Proof. reflexivity. Qed.
End Frames.

Section Projections.
Variables (rt : PyRuntime) (j : string).

Lemma scripts_at_logged stage message w :
  generated_scripts (logged rt j stage message w) = generated_scripts w.
Proof. reflexivity. Qed.

Lemma scripts_at_script_saved content w :
  generated_scripts (script_saved j content w)
  = (generated_scripts w
     ++ [{| script_job_id := j; script_content := content;
            script_type := "playwright";
            script_created_at := clock w |}])%list.
Proof. reflexivity. Qed.

Lemma scripts_at_data_saved value count w :
  generated_scripts (data_saved j value count w) = generated_scripts w.
Proof. reflexivity. Qed.

Lemma scripts_at_committed status error_message w :
  generated_scripts (status_committed j status error_message w)
  = generated_scripts w.
Proof. unfold status_committed. destruct (is_terminal status); reflexivity. Qed.

Lemma scripts_at_announced status error_message w :
  generated_scripts (status_announced rt j status error_message w)
  = generated_scripts w.
Proof. reflexivity. Qed.

Lemma scripts_at_unregistered w :
  generated_scripts (with_active_jobs (delete j) w) = generated_scripts w.
Proof. reflexivity. Qed.

Lemma data_at_logged stage message w :
  extracted_data (logged rt j stage message w) = extracted_data w.
Proof. reflexivity. Qed.

Lemma data_at_script_saved content w :
  extracted_data (script_saved j content w) = extracted_data w.
Proof. reflexivity. Qed.

Lemma data_at_data_saved value count w :
  extracted_data (data_saved j value count w)
  = (extracted_data w
     ++ [{| data_job_id := j; data := value; extracted_at := clock w;
            data_count := count |}])%list.
Proof. reflexivity. Qed.

Lemma data_at_committed status error_message w :
  extracted_data (status_committed j status error_message w)
  = extracted_data w.
Proof. unfold status_committed. destruct (is_terminal status); reflexivity. Qed.

Lemma data_at_announced status error_message w :
  extracted_data (status_announced rt j status error_message w)
  = extracted_data w.
Proof. reflexivity. Qed.

Lemma data_at_unregistered w :
  extracted_data (with_active_jobs (delete j) w) = extracted_data w.
Proof. reflexivity. Qed.

Lemma jobs_at_logged stage message w :
  scraping_jobs (logged rt j stage message w) = scraping_jobs w.
Proof. reflexivity. Qed.

Lemma jobs_at_script_saved content w :
  scraping_jobs (script_saved j content w) = scraping_jobs w.
Proof. reflexivity. Qed.

Lemma jobs_at_data_saved value count w :
  scraping_jobs (data_saved j value count w) = scraping_jobs w.
Proof. reflexivity. Qed.

Lemma jobs_at_announced status error_message w :
  scraping_jobs (status_announced rt j status error_message w)
  = scraping_jobs w.
Proof. reflexivity. Qed.

Lemma jobs_at_unregistered w :
  scraping_jobs (with_active_jobs (delete j) w) = scraping_jobs w.
Proof. reflexivity. Qed.

Lemma jobs_at_committed status error_message w :
  scraping_jobs (status_committed j status error_message w) !! j
  = apply_update status
      (if is_terminal status then Some (clock w) else None) error_message
    <$> scraping_jobs w !! j.
Proof.
  unfold status_committed.
  destruct (is_terminal status); cbn; apply lookup_alter_eq.
Qed.

Lemma jobs_at_committed_ne status error_message w j' :
  j <> j' ->
  scraping_jobs (status_committed j status error_message w) !! j'
  = scraping_jobs w !! j'.
Proof.
  intros Hne. unfold status_committed.
  destruct (is_terminal status); cbn; apply lookup_alter_ne; exact Hne.
Qed.

Lemma registry_at_unregistered w :
  active_jobs (with_active_jobs (delete j) w) !! j = None.
Proof. cbn. apply lookup_delete_eq. Qed.
End Projections.

(** The registry changes nothing else. *)

Lemma status_of_registry (f : gmap string Task -> gmap string Task)
    (w : World) (job_id : string) :
  status_of (with_active_jobs f w) job_id = status_of w job_id.
Proof. reflexivity. Qed.

Lemma scripts_at_registry (f : gmap string Task -> gmap string Task)
    (w : World) :
  generated_scripts (with_active_jobs f w) = generated_scripts w.
Proof. reflexivity. Qed.

Lemma data_at_registry (f : gmap string Task -> gmap string Task)
    (w : World) :
  extracted_data (with_active_jobs f w) = extracted_data w.
Proof. reflexivity. Qed.

Lemma jobs_at_registry (f : gmap string Task -> gmap string Task)
    (w : World) :
  scraping_jobs (with_active_jobs f w) = scraping_jobs w.
Proof. reflexivity. Qed.

Lemma registry_at_registry (f : gmap string Task -> gmap string Task)
    (w : World) :
  active_jobs (with_active_jobs f w) = f (active_jobs w).
Proof. reflexivity. Qed.

#[global] Opaque logged script_saved data_saved status_committed
  status_announced with_active_jobs.

Ltac status_frame :=
  repeat match goal with
    | |- context [status_of (logged ?rt ?j ?s ?m ?w) ?job] =>
        rewrite (status_of_logged job rt j s m w)
    | |- context [status_of (script_saved ?j ?c ?w) ?job] =>
        rewrite (status_of_script_saved job j c w)
    | |- context [status_of (data_saved ?j ?v ?n ?w) ?job] =>
        rewrite (status_of_data_saved job j v n w)
    | |- context [status_of (status_announced ?rt ?j ?s ?e ?w) ?job] =>
        rewrite (status_of_announced job rt j s e w)
    | |- context [status_of (with_active_jobs (delete ?j) ?w) ?job] =>
        rewrite (status_of_unregistered job j w)
    end.

(** Rewrites the tables of a world of a run to those of the world the run
    started in. *)
Ltac tables :=
  repeat match goal with
    | |- context [generated_scripts (logged ?rt ?j ?s ?m ?w)] =>
        rewrite (scripts_at_logged rt j s m w)
    | |- context [generated_scripts (script_saved ?j ?c ?w)] =>
        rewrite (scripts_at_script_saved j c w)
    | |- context [generated_scripts (data_saved ?j ?v ?n ?w)] =>
        rewrite (scripts_at_data_saved j v n w)
    | |- context [generated_scripts (status_committed ?j ?s ?e ?w)] =>
        rewrite (scripts_at_committed j s e w)
    | |- context [generated_scripts (status_announced ?rt ?j ?s ?e ?w)] =>
        rewrite (scripts_at_announced rt j s e w)
    | |- context [generated_scripts (with_active_jobs (delete ?j) ?w)] =>
        rewrite (scripts_at_unregistered j w)
    | |- context [extracted_data (logged ?rt ?j ?s ?m ?w)] =>
        rewrite (data_at_logged rt j s m w)
    | |- context [extracted_data (script_saved ?j ?c ?w)] =>
        rewrite (data_at_script_saved j c w)
    | |- context [extracted_data (data_saved ?j ?v ?n ?w)] =>
        rewrite (data_at_data_saved j v n w)
    | |- context [extracted_data (status_committed ?j ?s ?e ?w)] =>
        rewrite (data_at_committed j s e w)
    | |- context [extracted_data (status_announced ?rt ?j ?s ?e ?w)] =>
        rewrite (data_at_announced rt j s e w)
    | |- context [extracted_data (with_active_jobs (delete ?j) ?w)] =>
        rewrite (data_at_unregistered j w)
    | |- context [scraping_jobs (logged ?rt ?j ?s ?m ?w)] =>
        rewrite (jobs_at_logged rt j s m w)
    | |- context [scraping_jobs (script_saved ?j ?c ?w)] =>
        rewrite (jobs_at_script_saved j c w)
    | |- context [scraping_jobs (data_saved ?j ?v ?n ?w)] =>
        rewrite (jobs_at_data_saved j v n w)
    | |- context [scraping_jobs (status_announced ?rt ?j ?s ?e ?w)] =>
        rewrite (jobs_at_announced rt j s e w)
    | |- context [scraping_jobs (with_active_jobs (delete ?j) ?w)] =>
        rewrite (jobs_at_unregistered j w)
    | |- context [scraping_jobs (status_committed ?j ?s ?e ?w) !! ?j] =>
        rewrite (jobs_at_committed j s e w)
    end.

Ltac records :=
  lazymatch goal with
  | |- completed_has_records _ (logged _ _ _ _ _) =>
      apply records_logged; records
  | |- completed_has_records _ (status_announced _ _ _ _ _) =>
      apply records_announced; records
  | |- completed_has_records _ (with_active_jobs _ _) =>
      apply records_unregistered; records
  | |- completed_has_records _ (script_saved _ _ _) =>
      apply records_script_saved; records
  | |- completed_has_records _ (data_saved _ _ _ _) =>
      apply records_data_saved; records
  | |- completed_has_records _ (status_committed _ "failed" _ _) =>
      apply records_failed
  | |- completed_has_records _ (status_committed _ "completed" None _) =>
      apply records_completed; records
  | |- scripts_of (script_saved _ _ _) _ <> [] => apply scripts_of_saved
  | |- scripts_of (logged _ _ _ _ _) _ <> [] => apply scripts_logged; records
  | |- scripts_of (data_saved _ _ _ _) _ <> [] =>
      apply scripts_data_saved; records
  | |- scripts_of (status_announced _ _ _ _ _) _ <> [] =>
      apply scripts_announced; records
  | |- scripts_of (with_active_jobs _ _) _ <> [] =>
      apply scripts_unregistered; records
  | |- scripts_of (status_committed _ _ _ _) _ <> [] =>
      apply scripts_committed; records
  | |- data_of (data_saved _ _ _ _) _ <> [] => apply data_of_saved
  | |- data_of (logged _ _ _ _ _) _ <> [] => apply data_logged; records
  | |- data_of (status_announced _ _ _ _ _) _ <> [] =>
      apply data_announced; records
  | |- data_of (with_active_jobs _ _) _ <> [] =>
      apply data_unregistered; records
  | |- data_of (status_committed _ _ _ _) _ <> [] =>
      apply data_committed; records
  | |- _ => assumption
  end.


(** C1.  Along every run of [_execute_scraping_job], from a world where the
    property holds, a reader who finds the job [completed] finds a script
    and a result of the job: it holds in every world the run shows and in
    the one it leaves.  When both collaborators succeed and the job exists,
    the run leaves the job [completed]; the commit of that status is the
    ninth world shown, after the script (the fourth) and the result (the
    seventh). *)
Theorem records_precede_completed
    (rt : PyRuntime) (so : PyResult ScriptResult)
    (eo : PyResult ExtractionResult) (job_id url : string)
    (schema_definition : pydict) (w : World) :
  completed_has_records job_id w ->
  let r := _execute_scraping_job rt so eo job_id url schema_definition w in
  Forall (completed_has_records job_id) (seen r) /\
  completed_has_records job_id (final r) /\
  (succeeds so eo = true -> is_Some (scraping_jobs w !! job_id) ->
   status_of (final r) job_id = Some "completed" /\
   scripts_of (final r) job_id <> [] /\ data_of (final r) job_id <> [] /\
   exists w4 w7 w9,
     seen r !! 3%nat = Some w4 /\ seen r !! 6%nat = Some w7 /\
     seen r !! 8%nat = Some w9 /\
     status_of w4 job_id = status_of w job_id /\
     scripts_of w4 job_id <> [] /\
     status_of w7 job_id = status_of w job_id /\
     data_of w7 job_id <> [] /\
     status_of w9 job_id = Some "completed").
Proof.
  intros H r. subst r. rewrite execute_scraping_job_run.
  unfold execution, attempt, succeeds. cbv zeta.
  destruct so as [sr|e];
    [destruct (String.eqb (sr_status sr) "success") eqn:Es; cbn [negb andb];
     [destruct eo as [er|e];
      [destruct (String.eqb (er_status er) "success") eqn:Ee; cbn [negb andb]
      |]|]|];
    cbn [outcome seen final failed_run app];
    (split; [repeat (apply Forall_cons_2; [records|]); apply Forall_nil_2|]);
    (split; [records|]);
    try (intros Hf; discriminate Hf).
  intros _ [job Hjob].
  assert (Hst : forall w', status_of w' job_id = status_of w job_id ->
            status_of (status_committed job_id "completed" None w') job_id
            = Some "completed").
  { intros w' Hw'. rewrite status_of_committed, Hw'. unfold status_of.
    rewrite Hjob. reflexivity. }
  split; [status_frame; apply Hst; status_frame; reflexivity|].
  split; [records|]. split; [records|].
  eexists _, _, _.
  split; [reflexivity|]. split; [reflexivity|]. split; [reflexivity|].
  split; [status_frame; reflexivity|]. split; [records|].
  split; [status_frame; reflexivity|]. split; [records|].
  apply Hst. status_frame. reflexivity.
Qed.



(** C3.  [start_scraping_job] on a job id that is not in the table raises
    the exception whose text says the job was not found, and on a job whose
    status is not [pending] the one whose text says so (the code has one
    exception class, the two failures differ by their text); in both cases
    nothing was shown and the world is the one it started in, so the status
    and the registry are unchanged.  On a pending job it returns the
    [started] answer after three steps: the status committed as [running],
    its broadcast, and the task put in the registry; the tables of scripts
    and results are as before, no step of the pipeline has run. *)
Theorem start_scraping_job_cases (rt : PyRuntime) (job_id : string)
    (w : World) :
  let r := start_scraping_job rt job_id w in
  match scraping_jobs w !! job_id with
  | None =>
      r = mkRun [] (Raise (Exception ("Failed to start scraping job: Job "
                                      ++ job_id ++ " not found"))) w
  | Some job =>
      if String.eqb (job_status job) "pending"
      then
        let w1 := status_committed job_id "running" None w in
        let w2 := status_announced rt job_id "running" None w1 in
        let w3 := with_active_jobs (insert job_id (task_of job_id job)) w2 in
        r = mkRun [w1; w2; w3]
                  (Ok [("status", JStr "started");
                       ("job_id", JStr job_id);
                       ("message", JStr "Scraping job started successfully")])
                  w3 /\
        status_of w3 job_id = Some "running" /\
        active_jobs w3 !! job_id = Some (task_of job_id job) /\
        generated_scripts w3 = generated_scripts w /\
        extracted_data w3 = extracted_data w
      else
        r = mkRun [] (Raise (Exception
                               ("Failed to start scraping job: Job "
                                ++ job_id ++ " is not in pending status"))) w
  end.
Proof.
  intros r. subst r.
  destruct (scraping_jobs w !! job_id) as [job|] eqn:Hjob.
  2:{ unfold start_scraping_job.
      eapply (runs_try_except_raise _ _ _ []
                (Exception ("Job " ++ job_id ++ " not found")) _ []);
        [|unfold runs; reflexivity].
      eapply (runs_bind_ok _ _ _ [] (@None ScrapingJob)).
      - unfold runs, select_job. rewrite Hjob. reflexivity.
      - unfold runs; reflexivity. }
  destruct (String.eqb (job_status job) "pending") eqn:Hs.
  2:{ unfold start_scraping_job.
      eapply (runs_try_except_raise _ _ _ []
                (Exception ("Job " ++ job_id ++ " is not in pending status"))
                _ []);
        [|unfold runs; reflexivity].
      eapply (runs_bind_ok _ _ _ [] (Some job)).
      - unfold runs, select_job. rewrite Hjob. reflexivity.
      - cbv beta iota. rewrite Hs. unfold runs; reflexivity. }
  cbv zeta. split; [|split; [|split; [|split]]].
  - unfold start_scraping_job. apply runs_try_except_ok.
    eapply (runs_bind_ok _ _ _ [] (Some job)).
    { unfold runs, select_job. rewrite Hjob. reflexivity. }
    cbv beta iota. rewrite Hs. cbn [negb].
    eapply (runs_bind_ok _ _ _ [_; _]); [apply runs_update_status|].
    eapply (runs_bind_ok _ _ _ [_]); [apply runs_effect|].
    apply runs_ret.
  - rewrite status_of_registry, status_of_announced, status_of_committed.
    unfold status_of. rewrite Hjob. reflexivity.
  - rewrite registry_at_registry. apply lookup_insert_eq.
  - rewrite scripts_at_registry, scripts_at_announced, scripts_at_committed.
    reflexivity.
  - rewrite data_at_registry, data_at_announced, data_at_committed.
    reflexivity.
Qed.






Lemma records_precede_completed_witness :
  completed_has_records "job-1" example_world /\
  Forall (completed_has_records "job-1")
         (seen (_execute_scraping_job example_runtime (Ok example_script)
                  (Ok example_extraction) "job-1" "https://example.com/" []
                  example_world)).
Proof.
  assert (H : completed_has_records "job-1" example_world).
  { intros Hs. vm_compute in Hs. discriminate Hs. }
  split; [exact H|].
  exact (proj1 (records_precede_completed example_runtime (Ok example_script)
                  (Ok example_extraction) "job-1" "https://example.com/" []
                  example_world H)).
Defined.


(* ===================================================================== *)
(** * Further properties of the code                                      *)
(* ===================================================================== *)

(** * More of the connection hub *)

(** ** Lists of subscribers, continued *)

Lemma list_in_false (x : string) (l : list string) :
  list_in x l = false <-> x ∉ l.
Proof.
  rewrite <- list_in_spec. destruct (list_in x l); split; auto; try discriminate.
  intros H. exfalso. apply H. reflexivity.
Qed.

Lemma list_remove_absent (x : string) (l : list string) :
  x ∉ l -> list_remove x l = l.
Proof.
  induction l as [|y l IH]; cbn; [reflexivity|].
  intros H. apply not_elem_of_cons in H as [Hne H].
  destruct (String.eqb y x) eqn:E.
  - apply String.eqb_eq in E. congruence.
  - rewrite IH by exact H. reflexivity.
Qed.

Lemma list_remove_last (x : string) (l : list string) :
  x ∉ l -> list_remove x (l ++ [x]) = l.
Proof.
  induction l as [|y l IH]; cbn.
  - rewrite String.eqb_refl. reflexivity.
  - intros H. apply not_elem_of_cons in H as [Hne H].
    destruct (String.eqb y x) eqn:E.
    + apply String.eqb_eq in E. congruence.
    + rewrite IH by exact H. reflexivity.
Qed.

Lemma list_remove_middle (x : string) (p l : list string) :
  x ∉ p -> list_remove x (p ++ x :: l) = (p ++ l)%list.
Proof.
  induction p as [|y p IH]; cbn.
  - rewrite String.eqb_refl. reflexivity.
  - intros H. apply not_elem_of_cons in H as [Hne H].
    destruct (String.eqb y x) eqn:E.
    + apply String.eqb_eq in E. congruence.
    + rewrite IH by exact H. reflexivity.
Qed.

Lemma list_remove_other (x y : string) (l : list string) :
  y <> x -> y ∈ list_remove x l <-> y ∈ l.
Proof.
  intros Hne. induction l as [|z l IH]; cbn; [reflexivity|].
  destruct (String.eqb z x) eqn:E.
  - apply String.eqb_eq in E. subst z. rewrite elem_of_cons. tauto.
  - rewrite !elem_of_cons, IH. reflexivity.
Qed.

Lemma drop_subscriber_absent (c : string) (l : list string) :
  c ∉ l -> drop_subscriber c l = Some l.
Proof.
  intros H. unfold drop_subscriber.
  apply list_in_false in H. rewrite H. reflexivity.
Qed.

Lemma drop_subscriber_other (c c' : string) (l : list string) :
  c' <> c -> c' ∈ default [] (drop_subscriber c l) <-> c' ∈ l.
Proof.
  intros Hne. unfold drop_subscriber.
  destruct (list_in c l); [|reflexivity].
  pose proof (list_remove_other c c' l Hne) as H.
  destruct (list_remove c l); cbn; exact H.
Qed.

(** After [disconnect c] no list holds [c]. *)
Lemma disconnect_gone (c : string) (m : ConnectionManager) (j : string)
    (l : list string) :
  subscribers_nodup m ->
  job_subscribers (disconnect c m) !! j = Some l -> c ∉ l.
Proof.
  intros Hm H. cbn in H. rewrite lookup_omap in H.
  destruct (job_subscribers m !! j) as [l0|] eqn:E; [|discriminate].
  cbn in H. exact (proj2 (drop_subscriber_Some _ _ _ (Hm _ _ E) H)).
Qed.

(** ** Subscriptions *)

(** X1.  Subscribing twice is subscribing once: the list of the job holds
    the client a single time, whatever the state of the hub. *)
Theorem subscribe_to_job_idempotent (job_id client_id : string)
    (m : ConnectionManager) :
  subscribe_to_job job_id client_id (subscribe_to_job job_id client_id m)
  = subscribe_to_job job_id client_id m.
Proof.
  unfold subscribe_to_job. cbn [active_connections job_subscribers].
  rewrite lookup_insert_eq. cbn [default].
  set (l := default [] (job_subscribers m !! job_id)).
  f_equal. rewrite insert_insert_eq. f_equal.
  destruct (list_in client_id l) eqn:E; cbv beta iota delta [id].
  - rewrite E. reflexivity.
  - assert (H : list_in client_id (l ++ [client_id]) = true).
    { apply list_in_spec, elem_of_app. right. apply list_elem_of_singleton.
      reflexivity. }
    rewrite H. reflexivity.
Qed.

(** X2.  Unsubscribing undoes a subscription: when the client was not a
    subscriber of the job, and the job does not have an empty list left
    behind by [broadcast_job_update], the hub is back in the state it was
    in. *)
Theorem unsubscribe_undoes_subscribe (job_id client_id : string)
    (m : ConnectionManager) :
  client_id ∉ subscribers_of m job_id ->
  job_subscribers m !! job_id <> Some [] ->
  unsubscribe_from_job job_id client_id (subscribe_to_job job_id client_id m)
  = m.
Proof.
  unfold subscribers_of. intros Hc Hne. destruct m as [conns subs]. cbn in *.
  unfold unsubscribe_from_job, subscribe_to_job. cbn.
  rewrite lookup_insert_eq.
  apply list_in_false in Hc. rewrite Hc.
  apply list_in_false in Hc.
  assert (H : list_in client_id (default [] (subs !! job_id) ++ [client_id])
              = true).
  { apply list_in_spec, elem_of_app. right. apply list_elem_of_singleton.
    reflexivity. }
  rewrite H, list_remove_last by exact Hc. f_equal.
  destruct (subs !! job_id) as [l|] eqn:E; cbn.
  - destruct l as [|x l]; [congruence|].
    rewrite insert_insert_eq. apply insert_id. exact E.
  - apply delete_insert_id. exact E.
Qed.

Lemma unsubscribe_undoes_subscribe_witness :
  let m := subscribe_to_job "job-1" "alice"
             (connect (mkWebSocket true []) "alice" new_manager) in
  ("bob" ∉ subscribers_of m "job-1") /\
  unsubscribe_from_job "job-1" "bob" (subscribe_to_job "job-1" "bob" m) = m.
Proof.
  intros m.
  assert (H1 : "bob" ∉ subscribers_of m "job-1").
  { apply list_in_false. vm_compute. reflexivity. }
  assert (H2 : job_subscribers m !! "job-1" <> Some []).
  { vm_compute. discriminate. }
  split; [exact H1|].
  exact (unsubscribe_undoes_subscribe "job-1" "bob" m H1 H2).
Defined.

(** ** Connections *)

(** X3.  Disconnecting twice is disconnecting once, in every state where
    no list of subscribers holds a client twice (every state the hub can
    reach). *)
Theorem disconnect_idempotent (client_id : string) (m : ConnectionManager) :
  subscribers_nodup m ->
  disconnect client_id (disconnect client_id m) = disconnect client_id m.
Proof.
  intros Hm.
  assert (H1 : delete client_id (active_connections (disconnect client_id m))
               = active_connections (disconnect client_id m)).
  { apply map_eq. intros c. cbn.
    destruct (decide (c = client_id)) as [->|Hne].
    - rewrite !lookup_delete_eq. reflexivity.
    - rewrite !lookup_delete_ne by congruence. reflexivity. }
  assert (H2 : omap (drop_subscriber client_id)
                    (job_subscribers (disconnect client_id m))
               = job_subscribers (disconnect client_id m)).
  { apply map_eq. intros j. rewrite lookup_omap.
    destruct (job_subscribers (disconnect client_id m) !! j) as [l|] eqn:E;
      [|reflexivity].
    cbn. apply drop_subscriber_absent.
    exact (disconnect_gone _ _ _ _ Hm E). }
  unfold disconnect at 1. rewrite H1, H2.
  destruct (disconnect client_id m). reflexivity.
Qed.

Lemma disconnect_idempotent_witness :
  let m := subscribe_to_job "job-1" "bob"
             (subscribe_to_job "job-1" "alice"
                (connect (mkWebSocket true []) "alice" new_manager)) in
  subscribers_nodup m /\
  disconnect "alice" (disconnect "alice" m) = disconnect "alice" m.
Proof.
  intros m.
  assert (H : subscribers_nodup m).
  { apply subscribe_nodup, subscribe_nodup. intros j l E.
    cbn in E. rewrite lookup_empty in E. discriminate E. }
  split; [exact H|]. exact (disconnect_idempotent "alice" m H).
Defined.

(** X4.  A client that connects and disconnects without subscribing leaves
    the hub as it was: when the id was unknown to the hub (not connected,
    in no list), [disconnect] after [connect] gives back the state. *)
Theorem disconnect_undoes_connect (websocket : WebSocket)
    (client_id : string) (m : ConnectionManager) :
  active_connections m !! client_id = None ->
  (forall job_id, client_id ∉ subscribers_of m job_id) ->
  disconnect client_id (connect websocket client_id m) = m.
Proof.
  intros Hc Hs. destruct m as [conns subs]. unfold disconnect, connect.
  cbn in *. f_equal.
  - apply delete_insert_id. exact Hc.
  - apply map_eq. intros j. rewrite lookup_omap.
    specialize (Hs j). unfold subscribers_of in Hs. cbn in Hs.
    destruct (subs !! j) as [l|]; [|reflexivity].
    cbn in *. apply drop_subscriber_absent. exact Hs.
Qed.

Lemma disconnect_undoes_connect_witness :
  let m := subscribe_to_job "job-1" "alice"
             (connect (mkWebSocket true []) "alice" new_manager) in
  active_connections m !! "bob" = None /\
  disconnect "bob" (connect (mkWebSocket true []) "bob" m) = m.
Proof.
  intros m.
  assert (H1 : active_connections m !! "bob" = None)
    by (vm_compute; reflexivity).
  assert (H2 : forall job_id, "bob" ∉ subscribers_of m job_id).
  { intros j. unfold subscribers_of, m. cbn.
    destruct (decide ("job-1" = j)) as [<-|Hne].
    - rewrite lookup_insert_eq. cbn. apply list_in_false. reflexivity.
    - rewrite lookup_insert_ne by exact Hne. rewrite lookup_empty.
      apply not_elem_of_nil. }
  split; [exact H1|].
  exact (disconnect_undoes_connect _ "bob" m H1 H2).
Defined.

(** ** Broadcasts, continued *)

Lemma disconnect_all_gone (clients : list string) (m : ConnectionManager)
    (c : string) :
  c ∈ clients ->
  active_connections (fold_left (fun m c' => disconnect c' m) clients m) !! c
  = None.
Proof.
  revert m. induction clients as [|c' l IH]; intros m Hc; cbn.
  - inversion Hc.
  - destruct (decide (c ∈ l)) as [Hl|Hl]; [apply IH, Hl|].
    apply elem_of_cons in Hc as [->|Hc]; [|contradiction].
    rewrite disconnect_all_lookup by exact Hl. cbn.
    apply lookup_delete_eq.
Qed.

Lemma closed_client_failed (msg : pydict)
    (connections : gmap string WebSocket) (c : string) (ws : WebSocket) :
  connections !! c = Some ws -> ws_open ws = false ->
  c ∈ failed_clients msg connections.
Proof.
  intros Hc Ho. unfold failed_clients.
  apply list_elem_of_fmap. exists (c, ws). split; [reflexivity|].
  apply list_elem_of_filter. split.
  - cbn. unfold send_fails, send_text. rewrite Ho. reflexivity.
  - apply elem_of_map_to_list. exact Hc.
Qed.

Lemma unknown_client_not_failed (msg : pydict)
    (connections : gmap string WebSocket) (c : string) :
  connections !! c = None -> c ∉ failed_clients msg connections.
Proof.
  intros Hc Hin. unfold failed_clients in Hin.
  apply list_elem_of_fmap in Hin as ([c' ws] & -> & Hin).
  apply list_elem_of_filter in Hin as [_ Hin].
  apply elem_of_map_to_list in Hin. cbn in *. congruence.
Qed.

(** X5.  After [broadcast_to_all] the connections are exactly the clients
    whose socket was open, each with the message added to what it was sent;
    a client whose send failed is no longer connected. *)
Theorem broadcast_to_all_keeps_the_open_clients (message : pydict)
    (m : ConnectionManager) (client_id : string) :
  active_connections (broadcast_to_all message m) !! client_id
  = ws ← active_connections m !! client_id;
    if ws_open ws then Some (received message ws) else None.
Proof.
  destruct (active_connections m !! client_id) as [[open sent]|] eqn:E; cbn.
  - destruct open.
    + apply broadcast_to_all_open. exact E.
    + unfold broadcast_to_all. apply disconnect_all_gone.
      exact (closed_client_failed _ _ _ _ E eq_refl).
  - unfold broadcast_to_all.
    rewrite disconnect_all_lookup
      by exact (unknown_client_not_failed _ _ _ E).
    cbn. rewrite lookup_fmap, E. reflexivity.
Qed.

(** The first loop of [broadcast_job_update]. *)

Lemma job_update_step_open (msg : pydict)
    (acc : gmap string WebSocket * list string) (c c' : string) :
  socket_open (fst (job_update_step msg acc c)) c' = socket_open (fst acc) c'.
Proof.
  unfold job_update_step. destruct (fst acc !! c) as [ws|] eqn:E;
    [|reflexivity].
  unfold send_text. destruct (ws_open ws) eqn:Eo; [|reflexivity].
  cbn. unfold socket_open. destruct (decide (c = c')) as [<-|Hne].
  - rewrite lookup_insert_eq, E. cbn. rewrite Eo. reflexivity.
  - rewrite lookup_insert_ne by exact Hne. reflexivity.
Qed.

Lemma job_update_step_failed (msg : pydict)
    (acc : gmap string WebSocket * list string) (c : string) :
  snd (job_update_step msg acc c)
  = (snd acc ++ filter (fun c' => socket_open (fst acc) c' = false) [c])%list.
Proof.
  unfold job_update_step, socket_open.
  rewrite filter_cons, filter_nil.
  destruct (fst acc !! c) as [ws|] eqn:E.
  - unfold send_text. destruct (ws_open ws) eqn:Eo; cbn.
    + rewrite decide_False by discriminate. rewrite app_nil_r. reflexivity.
    + rewrite decide_True by reflexivity. reflexivity.
  - cbn. rewrite decide_True by reflexivity. reflexivity.
Qed.

Lemma filter_socket_open_ext (b : bool)
    (conns conns' : gmap string WebSocket) (l : list string) :
  (forall c, socket_open conns' c = socket_open conns c) ->
  filter (fun c => socket_open conns' c = b) l
  = filter (fun c => socket_open conns c = b) l.
Proof.
  intros H. induction l as [|x l IH]; [reflexivity|].
  rewrite !filter_cons, IH, H. reflexivity.
Qed.

Lemma job_update_fold_failed (msg : pydict) (l : list string)
    (acc : gmap string WebSocket * list string) :
  snd (fold_left (job_update_step msg) l acc)
  = (snd acc ++ filter (fun c => socket_open (fst acc) c = false) l)%list.
Proof.
  revert acc. induction l as [|x l IH]; intros acc; cbn [fold_left].
  - rewrite filter_nil, app_nil_r. reflexivity.
  - rewrite IH, job_update_step_failed.
    rewrite (filter_socket_open_ext false (fst acc)
               (fst (job_update_step msg acc x)) l)
      by (intros c; apply job_update_step_open).
    rewrite <- app_assoc. f_equal.
    rewrite filter_cons, filter_nil.
    rewrite (filter_cons _ x l).
    destruct (decide (socket_open (fst acc) x = false)); reflexivity.
Qed.

Lemma job_update_fold_domain (msg : pydict) (l : list string)
    (acc : gmap string WebSocket * list string) (c : string) :
  is_Some (fst (fold_left (job_update_step msg) l acc) !! c)
  <-> is_Some (fst acc !! c).
Proof.
  revert acc. induction l as [|x l IH]; intros acc; cbn [fold_left];
    [reflexivity|].
  rewrite IH. unfold job_update_step.
  destruct (fst acc !! x) as [ws|] eqn:E; [|reflexivity].
  destruct (send_text ws msg); [|reflexivity].
  cbn. destruct (decide (x = c)) as [<-|Hne].
  - rewrite lookup_insert_eq, E. split; intros _; eexists; reflexivity.
  - rewrite lookup_insert_ne by exact Hne. reflexivity.
Qed.

Lemma job_update_fold_sockets (msg : pydict) (l : list string)
    (acc : gmap string WebSocket * list string) (c : string) :
  NoDup l ->
  fst (fold_left (job_update_step msg) l acc) !! c
  = ws ← fst acc !! c;
    Some (if list_in c l && ws_open ws then received msg ws else ws).
Proof.
  intros Hl. revert acc.
  induction Hl as [|x l Hx Hl IH]; intros acc; cbn [fold_left].
  - cbn. destruct (fst acc !! c); reflexivity.
  - rewrite IH. unfold list_in. cbn [existsb]. fold (list_in c l).
    unfold job_update_step.
    destruct (String.eqb c x) eqn:Ecx.
    + apply String.eqb_eq in Ecx. subst x.
      apply list_in_false in Hx. rewrite Hx. cbn [orb andb].
      destruct (fst acc !! c) as [ws|] eqn:E; [|cbn; rewrite E; reflexivity].
      unfold send_text. destruct (ws_open ws) eqn:Eo; cbn.
      * rewrite lookup_insert_eq. cbn. rewrite Eo. reflexivity.
      * rewrite E. cbn. rewrite Eo. reflexivity.
    + apply String.eqb_neq in Ecx. cbn [orb].
      destruct (fst acc !! x) as [ws|] eqn:E; [|reflexivity].
      destruct (send_text ws msg); [|reflexivity].
      cbn. rewrite lookup_insert_ne by congruence. reflexivity.
Qed.

(** The clean-up loop of [broadcast_job_update]. *)
Lemma job_cleanup_fold (conns : gmap string WebSocket)
    (l p : list string) :
  Forall (fun c => socket_open conns c = true) p ->
  fold_left job_cleanup_step
            (filter (fun c => socket_open conns c = false) l) (p ++ l)%list
  = (p ++ filter (fun c => socket_open conns c = true) l)%list.
Proof.
  revert p. induction l as [|x l IH]; intros p Hp.
  - rewrite !filter_nil. reflexivity.
  - rewrite !filter_cons.
    destruct (socket_open conns x) eqn:Ex.
    + rewrite decide_False by discriminate.
      rewrite decide_True by reflexivity.
      change (p ++ x :: l)%list with (p ++ [x] ++ l)%list.
      change (p ++ x :: filter (fun c => socket_open conns c = true) l)%list
        with (p ++ [x] ++ filter (fun c => socket_open conns c = true) l)%list.
      rewrite !app_assoc. apply IH.
      apply Forall_app. split; [exact Hp|].
      apply Forall_cons_2; [exact Ex | apply Forall_nil_2].
    + rewrite decide_True by reflexivity.
      rewrite decide_False by discriminate.
      cbn [fold_left]. unfold job_cleanup_step at 2.
      assert (Hin : list_in x (p ++ x :: l) = true).
      { apply list_in_spec, elem_of_app. right. apply elem_of_cons. auto. }
      rewrite Hin, list_remove_middle; [apply IH, Hp|].
      intros Hxp. rewrite Forall_forall in Hp.
      specialize (Hp _ Hxp). congruence.
Qed.

(** X6.  [broadcast_job_update] keeps in the list of the job exactly the
    subscribers connected over an open socket, in their order; the entry
    stays in the table even when the list is left empty, the lists of the
    other jobs are as before, and no connection is added or removed. *)
Theorem broadcast_job_update_prunes_dead_subscribers (job_id : string)
    (message : pydict) (m : ConnectionManager) (subscribers : list string) :
  job_subscribers m !! job_id = Some subscribers ->
  let m' := broadcast_job_update job_id message m in
  job_subscribers m' !! job_id
  = Some (filter (fun c => socket_open (active_connections m) c = true)
                 subscribers) /\
  (forall job_id', job_id' <> job_id ->
     job_subscribers m' !! job_id' = job_subscribers m !! job_id') /\
  (forall c, is_Some (active_connections m' !! c)
             <-> is_Some (active_connections m !! c)).
Proof.
  intros Hj m'. subst m'. unfold broadcast_job_update. rewrite Hj.
  pose proof (job_update_fold_failed message subscribers
                (active_connections m, [])) as Hf.
  pose proof (job_update_fold_domain message subscribers
                (active_connections m, [])) as Hd.
  destruct (fold_left (job_update_step message) subscribers
                      (active_connections m, []))
    as [connections disconnected_clients].
  cbn in Hf, Hd. subst disconnected_clients.
  cbn [job_subscribers active_connections]. split; [|split].
  - rewrite lookup_insert_eq. f_equal.
    exact (job_cleanup_fold (active_connections m) subscribers []
             (Forall_nil_2 _)).
  - intros j' Hne. apply lookup_insert_ne. congruence.
  - exact Hd.
Qed.

Lemma broadcast_job_update_prunes_dead_subscribers_witness :
  let m := subscribe_to_job "job-1" "carol"
             (connection_manager example_world) in
  job_subscribers m !! "job-1" = Some ["alice"; "carol"] /\
  job_subscribers (broadcast_job_update "job-1" [] m) !! "job-1"
  = Some ["alice"].
Proof.
  intros m.
  assert (H : job_subscribers m !! "job-1" = Some ["alice"; "carol"])
    by (vm_compute; reflexivity).
  split; [exact H|].
  rewrite (proj1 (broadcast_job_update_prunes_dead_subscribers
                    "job-1" [] m _ H)).
  vm_compute. reflexivity.
Defined.

(** X7.  [broadcast_job_update] hands the message once to every subscriber
    of the job whose socket is open and to nobody else: the socket of any
    other client is as it was.  The list of the job is assumed to hold no
    client twice, as in every state the hub can reach. *)
Theorem broadcast_job_update_reaches_the_subscribers (job_id : string)
    (message : pydict) (m : ConnectionManager) (subscribers : list string)
    (client_id : string) :
  job_subscribers m !! job_id = Some subscribers ->
  NoDup subscribers ->
  active_connections (broadcast_job_update job_id message m) !! client_id
  = ws ← active_connections m !! client_id;
    Some (if list_in client_id subscribers && ws_open ws
          then received message ws else ws).
Proof.
  intros Hj Hl. unfold broadcast_job_update. rewrite Hj.
  pose proof (job_update_fold_sockets message subscribers
                (active_connections m, []) client_id Hl) as Hs.
  destruct (fold_left (job_update_step message) subscribers
                      (active_connections m, []))
    as [connections disconnected_clients].
  exact Hs.
Qed.

Lemma broadcast_job_update_reaches_the_subscribers_witness :
  let m := connection_manager example_world in
  let message := [("type", JStr "job_completed")] in
  job_subscribers m !! "job-1" = Some ["alice"] /\
  NoDup ["alice"] /\
  active_connections (broadcast_job_update "job-1" message m) !! "alice"
  = Some {| ws_open := true; ws_sent := [message] |} /\
  active_connections (broadcast_job_update "job-1" message m) !! "bob"
  = Some {| ws_open := true; ws_sent := [] |}.
Proof.
  intros m message.
  assert (H1 : job_subscribers m !! "job-1" = Some ["alice"])
    by (vm_compute; reflexivity).
  assert (H2 : NoDup ["alice"]).
  { apply NoDup_cons_2; [apply not_elem_of_nil | apply NoDup_nil_2]. }
  split; [exact H1|]. split; [exact H2|]. split.
  - rewrite (broadcast_job_update_reaches_the_subscribers
               "job-1" message m _ "alice" H1 H2).
    vm_compute. reflexivity.
  - rewrite (broadcast_job_update_reaches_the_subscribers
               "job-1" message m _ "bob" H1 H2).
    vm_compute. reflexivity.
Defined.

(** ** Messages of a client *)

Lemma same_for_refl (c : string) (m : ConnectionManager) : same_for c m m.
Proof. split; [reflexivity | intros j; reflexivity]. Qed.

Lemma same_for_trans (c : string) (m1 m2 m3 : ConnectionManager) :
  same_for c m1 m2 -> same_for c m2 m3 -> same_for c m1 m3.
Proof.
  intros [H1 H1'] [H2 H2']. split; [congruence|].
  intros j. rewrite H2', H1'. reflexivity.
Qed.

Lemma disconnect_same_for (c c' : string) (m : ConnectionManager) :
  c' <> c -> same_for c' m (disconnect c m).
Proof.
  intros Hne. split; cbn.
  - apply lookup_delete_ne. congruence.
  - intros j. unfold subscribers_of. cbn. rewrite lookup_omap.
    destruct (job_subscribers m !! j) as [l|]; cbn; [|reflexivity].
    apply drop_subscriber_other. exact Hne.
Qed.

Lemma send_personal_message_same_for (msg : pydict) (c c' : string)
    (m : ConnectionManager) :
  c' <> c -> same_for c' m (send_personal_message msg c m).
Proof.
  intros Hne. unfold send_personal_message.
  destruct (active_connections m !! c) as [ws|]; [|apply same_for_refl].
  destruct (send_text ws msg); [|apply disconnect_same_for, Hne].
  split; cbn; [|intros j; reflexivity].
  apply lookup_insert_ne. congruence.
Qed.

Lemma subscribe_same_for (j c c' : string) (m : ConnectionManager) :
  c' <> c -> same_for c' m (subscribe_to_job j c m).
Proof.
  intros Hne. split; cbn; [reflexivity|].
  intros j'. unfold subscribers_of. cbn.
  destruct (decide (j = j')) as [<-|Hj].
  - rewrite lookup_insert_eq. cbn.
    destruct (list_in c (default [] (job_subscribers m !! j)));
      [reflexivity|].
    rewrite elem_of_app, list_elem_of_singleton. tauto.
  - rewrite lookup_insert_ne by exact Hj. reflexivity.
Qed.

Lemma unsubscribe_same_for (j c c' : string) (m : ConnectionManager) :
  c' <> c -> same_for c' m (unsubscribe_from_job j c m).
Proof.
  intros Hne. unfold unsubscribe_from_job.
  destruct (job_subscribers m !! j) as [l|] eqn:E; [|apply same_for_refl].
  destruct (list_in c l); [|apply same_for_refl].
  split; cbn; [reflexivity|].
  intros j'. unfold subscribers_of. cbn.
  pose proof (list_remove_other c c' l Hne) as Hr.
  destruct (decide (j = j')) as [<-|Hj].
  - rewrite E. cbn. destruct (list_remove c l).
    + rewrite lookup_delete_eq. exact Hr.
    + rewrite lookup_insert_eq. exact Hr.
  - destruct (list_remove c l).
    + rewrite lookup_delete_ne by exact Hj. reflexivity.
    + rewrite lookup_insert_ne by exact Hj. reflexivity.
Qed.

(** X8.  A message of a client concerns that client alone: whatever the
    message, when the handler returns, every other client has the socket
    it had, with the same messages sent, and is subscribed to the same
    jobs. *)
Theorem handle_websocket_message_concerns_the_sender (rt : PyRuntime)
    (uuid_of : string -> option UUID) (message : pydict)
    (client_id : string) (m m' : ConnectionManager) (other : string) :
  handle_websocket_message rt uuid_of message client_id m = Ok m' ->
  other <> client_id ->
  same_for other m m'.
Proof.
  intros H Hne. unfold handle_websocket_message in H.
  repeat match type of H with
         | (if ?b then _ else _) = _ => destruct b
         | match ?r with Ok _ => _ | Raise _ => _ end = _ => destruct r
         end;
    try discriminate H; injection H as <-;
    try apply same_for_refl;
    try (apply send_personal_message_same_for; exact Hne).
  - eapply same_for_trans; [apply subscribe_same_for, Hne|].
    apply send_personal_message_same_for, Hne.
  - eapply same_for_trans; [apply unsubscribe_same_for, Hne|].
    apply send_personal_message_same_for, Hne.
Qed.

Lemma handle_websocket_message_concerns_the_sender_witness :
  let m := connection_manager example_world in
  let message := [("type", JStr "unsubscribe_job");
                  ("job_id", JStr "job-1")] in
  exists m',
    handle_websocket_message example_runtime example_uuid_of message
                             "alice" m = Ok m' /\
    same_for "bob" m m'.
Proof.
  intros m message. eexists. split; [vm_compute; reflexivity|].
  apply (handle_websocket_message_concerns_the_sender
           example_runtime example_uuid_of message "alice" m _ "bob");
    [vm_compute; reflexivity | discriminate].
Defined.

(** X9.  A [subscribe_job] message that names a job by a valid id, from a
    client connected over an open socket, subscribes the client to the job
    and is acknowledged: the client is sent one more message, of type
    [subscribed], that echoes the id as it was written. *)
Theorem subscribe_request_is_acknowledged (rt : PyRuntime)
    (uuid_of : string -> option UUID) (message : pydict)
    (client_id : string) (m : ConnectionManager) (job_id_str job_id : string)
    (sent : list pydict) :
  get message "type" = JStr "subscribe_job" ->
  get message "job_id" = JStr job_id_str ->
  uuid_of job_id_str = Some job_id ->
  job_id_str <> EmptyString ->
  active_connections m !! client_id
  = Some {| ws_open := true; ws_sent := sent |} ->
  exists m',
    handle_websocket_message rt uuid_of message client_id m = Ok m' /\
    client_id ∈ subscribers_of m' job_id /\
    active_connections m' !! client_id
    = Some {| ws_open := true;
              ws_sent := sent ++ [[("type", JStr "subscribed");
                                   ("job_id", JStr job_id_str);
                                   ("message",
                                    JStr "Subscribed to job updates")]] |}.
Proof.
  intros Ht Hj Hu Hne Hc. unfold handle_websocket_message.
  rewrite Ht, Hj. cbn [eq_str truthy uuid_UUID].
  apply String.eqb_neq in Hne. rewrite Hne, Hu. cbn [negb String.eqb].
  cbn -[send_personal_message subscribe_to_job].
  eexists. split; [reflexivity|].
  unfold send_personal_message.
  change (active_connections (subscribe_to_job job_id client_id m))
    with (active_connections m).
  rewrite Hc. cbn -[subscribe_to_job]. split.
  - unfold subscribers_of. cbn. rewrite lookup_insert_eq. cbn.
    destruct (list_in client_id (default [] (job_subscribers m !! job_id)))
      eqn:E.
    + apply list_in_spec. exact E.
    + apply elem_of_app. right. apply list_elem_of_singleton. reflexivity.
  - apply lookup_insert_eq.
Qed.

Lemma subscribe_request_is_acknowledged_witness :
  let m := connection_manager example_world in
  let message := [("type", JStr "subscribe_job");
                  ("job_id", JStr "job-2")] in
  exists m',
    handle_websocket_message example_runtime example_uuid_of message
                             "bob" m = Ok m' /\
    "bob" ∈ subscribers_of m' "job-2".
Proof.
  intros m message.
  destruct (subscribe_request_is_acknowledged example_runtime example_uuid_of
              message "bob" m "job-2" "job-2" [])
    as (m' & H1 & H2 & _);
    [reflexivity | reflexivity | reflexivity | discriminate
     | vm_compute; reflexivity |].
  exists m'. split; [exact H1 | exact H2].
Defined.

(** X10.  A [subscribe_job] or [unsubscribe_job] message that names no
    valid job subscribes nobody.  Without a [job_id] (absent, null or
    empty) the message is dropped: the hub is unchanged and nothing is
    sent.  With a string that is no UUID the handler does nothing but send
    the sender the error [Invalid job ID format], and the lists of
    subscribers are unchanged when the sender's socket is open. *)
Theorem request_without_valid_job_id (rt : PyRuntime)
    (uuid_of : string -> option UUID) (message : pydict)
    (client_id : string) (m : ConnectionManager) :
  eq_str (get message "type") "subscribe_job"
  || eq_str (get message "type") "unsubscribe_job" = true ->
  (truthy (get message "job_id") = false ->
   handle_websocket_message rt uuid_of message client_id m = Ok m) /\
  (forall job_id_str,
     get message "job_id" = JStr job_id_str ->
     job_id_str <> EmptyString -> uuid_of job_id_str = None ->
     handle_websocket_message rt uuid_of message client_id m
     = Ok (send_personal_message invalid_job_id client_id m) /\
     (socket_open (active_connections m) client_id = true ->
      job_subscribers (send_personal_message invalid_job_id client_id m)
      = job_subscribers m)).
Proof.
  intros Ht. unfold handle_websocket_message. split.
  - intros Hf. rewrite Hf.
    destruct (eq_str (get message "type") "subscribe_job"); [reflexivity|].
    cbn in Ht. rewrite Ht. reflexivity.
  - intros s Hj Hne Hu. rewrite Hj. cbn [truthy uuid_UUID].
    apply String.eqb_neq in Hne. rewrite Hne, Hu. cbn [negb].
    split.
    + destruct (eq_str (get message "type") "subscribe_job"); [reflexivity|].
      cbn in Ht. rewrite Ht. reflexivity.
    + unfold send_personal_message, socket_open, send_text.
      destruct (active_connections m !! client_id) as [ws|]; [|discriminate].
      intros ->. reflexivity.
Qed.

Lemma request_without_valid_job_id_witness :
  let m := connection_manager example_world in
  handle_websocket_message example_runtime example_uuid_of
    [("type", JStr "subscribe_job"); ("job_id", JStr EmptyString)] "bob" m
  = Ok m.
Proof.
  intros m.
  apply (proj1 (request_without_valid_job_id example_runtime example_uuid_of
                  [("type", JStr "subscribe_job"); ("job_id", JStr EmptyString)]
                  "bob" m eq_refl)).
  reflexivity.
Defined.

(** ** A session *)

Lemma handle_websocket_message_nodup (rt : PyRuntime)
    (uuid_of : string -> option UUID) (message : pydict)
    (client_id : string) (m m' : ConnectionManager) :
  handle_websocket_message rt uuid_of message client_id m = Ok m' ->
  subscribers_nodup m -> subscribers_nodup m'.
Proof.
  intros H Hm. unfold handle_websocket_message in H.
  repeat match type of H with
         | (if ?b then _ else _) = _ => destruct b
         | match ?r with Ok _ => _ | Raise _ => _ end = _ => destruct r
         end;
    try discriminate H; injection H as <-;
    try exact Hm;
    try (apply send_personal_message_nodup; exact Hm).
  - apply send_personal_message_nodup, subscribe_nodup, Hm.
  - apply send_personal_message_nodup, unsubscribe_nodup, Hm.
Qed.

Lemma serve_ends_disconnected (rt : PyRuntime)
    (uuid_of : string -> option UUID) (frames : list (option json))
    (c : string) (m : ConnectionManager) :
  subscribers_nodup m ->
  exists m0, subscribers_nodup m0 /\
             serve rt uuid_of frames c m = disconnect c m0.
Proof.
  revert m. induction frames as [|frame frames IH]; intros m Hm; cbn.
  - exists m. auto.
  - destruct frame as [v|].
    + destruct v; try (exists m; split; [exact Hm | reflexivity]).
      destruct (handle_websocket_message rt uuid_of d c m) as [m1|e] eqn:E.
      * apply IH. exact (handle_websocket_message_nodup _ _ _ _ _ _ E Hm).
      * exists m. auto.
    + apply IH, send_personal_message_nodup, Hm.
Qed.

(** X11.  However a session goes (frames that are no JSON, that are no
    dict, that make the handler raise, or none at all), when
    [websocket_endpoint] returns the client is not connected and no list of
    subscribers holds it.  The hub is assumed to hold no client twice in a
    list when the client connects, as in every state it can reach. *)
Theorem websocket_endpoint_leaves_no_reference (rt : PyRuntime)
    (uuid_of : string -> option UUID) (websocket : WebSocket)
    (frames : list (option json)) (client_id : string)
    (m : ConnectionManager) :
  subscribers_nodup m ->
  let m' := websocket_endpoint rt uuid_of websocket frames client_id m in
  active_connections m' !! client_id = None /\
  forall job_id, client_id ∉ subscribers_of m' job_id.
Proof.
  intros Hm m'. subst m'. unfold websocket_endpoint.
  destruct (serve_ends_disconnected rt uuid_of frames client_id
              (connect websocket client_id m)) as (m0 & H0 & ->).
  { exact Hm. }
  split.
  - cbn. apply lookup_delete_eq.
  - intros j. unfold subscribers_of.
    destruct (job_subscribers (disconnect client_id m0) !! j) as [l|] eqn:E;
      cbn; [|apply not_elem_of_nil].
    exact (disconnect_gone _ _ _ _ H0 E).
Qed.

Lemma websocket_endpoint_leaves_no_reference_witness :
  let m := connection_manager example_world in
  let frames := [Some (JDict [("type", JStr "subscribe_job");
                              ("job_id", JStr "job-1")]);
                 None;
                 Some (JDict [("type", JStr "subscribe_job");
                              ("job_id", JInt 7)])] in
  subscribers_nodup m /\
  forall job_id,
    "carol" ∉ subscribers_of
                (websocket_endpoint example_runtime example_uuid_of
                   (mkWebSocket true []) frames "carol" m) job_id.
Proof.
  intros m frames.
  assert (H : subscribers_nodup m).
  { intros j l E. unfold m in E. cbn in E.
    apply lookup_singleton_Some in E as [_ <-].
    apply NoDup_cons_2; [apply not_elem_of_nil | apply NoDup_nil_2]. }
  split; [exact H|].
  exact (proj2 (websocket_endpoint_leaves_no_reference example_runtime
                  example_uuid_of (mkWebSocket true []) frames "carol" m H)).
Defined.

(** * More of the scraping service *)

(** ** The clock, the registry and the hub along a run *)

#[local] Transparent logged script_saved data_saved status_committed
  status_announced with_active_jobs.

Lemma clock_at_logged rt j stage message w :
  clock (logged rt j stage message w) = S (clock w).
Proof. reflexivity. Qed.

Lemma clock_at_script_saved j content w :
  clock (script_saved j content w) = S (clock w).
Proof. reflexivity. Qed.

Lemma clock_at_data_saved j value count w :
  clock (data_saved j value count w) = S (clock w).
Proof. reflexivity. Qed.

Lemma clock_at_announced rt j status error_message w :
  clock (status_announced rt j status error_message w) = S (clock w).
Proof. reflexivity. Qed.

Lemma clock_at_committed j status error_message w :
  clock (status_committed j status error_message w)
  = if is_terminal status then S (clock w) else clock w.
Proof. unfold status_committed. destruct (is_terminal status); reflexivity. Qed.

Lemma clock_at_registry f w : clock (with_active_jobs f w) = clock w.
Proof. reflexivity. Qed.

Lemma registry_at_logged rt j stage message w :
  active_jobs (logged rt j stage message w) = active_jobs w.
Proof. reflexivity. Qed.

Lemma registry_at_script_saved j content w :
  active_jobs (script_saved j content w) = active_jobs w.
Proof. reflexivity. Qed.

Lemma registry_at_data_saved j value count w :
  active_jobs (data_saved j value count w) = active_jobs w.
Proof. reflexivity. Qed.

Lemma registry_at_announced rt j status error_message w :
  active_jobs (status_announced rt j status error_message w) = active_jobs w.
Proof. reflexivity. Qed.

Lemma registry_at_committed j status error_message w :
  active_jobs (status_committed j status error_message w) = active_jobs w.
Proof. unfold status_committed. destruct (is_terminal status); reflexivity. Qed.

Lemma hub_at_committed j status error_message w :
  connection_manager (status_committed j status error_message w)
  = connection_manager w.
Proof. unfold status_committed. destruct (is_terminal status); reflexivity. Qed.

Lemma hub_at_registry f w :
  connection_manager (with_active_jobs f w) = connection_manager w.
Proof. reflexivity. Qed.


Lemma error_message_of_registry f w job_id :
  error_message_of (with_active_jobs f w) job_id = error_message_of w job_id.
Proof. reflexivity. Qed.

Lemma registry_open f w c sent :
  open_client w c sent -> open_client (with_active_jobs f w) c sent.
Proof. auto. Qed.

#[global] Opaque logged script_saved data_saved status_committed
  status_announced with_active_jobs.

(** ** Cancelling *)

Lemma cancel_job_run rt job_id w :
  let w1 := with_active_jobs (delete job_id) w in
  let w2 := status_committed job_id "cancelled" None w1 in
  let w3 := status_announced rt job_id "cancelled" None w2 in
  cancel_job rt job_id w
  = mkRun [w1; w2; w3]
          (Ok [("status", JStr "cancelled");
               ("job_id", JStr job_id);
               ("message", JStr "Job cancelled successfully")])
          w3.
Proof.
  cbv zeta. unfold cancel_job.
  apply runs_try_except_ok.
  eapply (runs_bind_ok _ _ _ [_]); [apply runs_effect|].
  eapply (runs_bind_ok _ _ _ [_; _]); [apply runs_update_status|].
  apply runs_ret.
Qed.

(** X12.  [cancel_job] checks neither that the job exists nor its status:
    it always returns the [cancelled] answer and leaves the job out of the
    registry.  A job of that id, whatever its status was (a completed one
    included), is left [cancelled] with the time of the call as its
    completion time and its error message kept; the other jobs, the scripts
    and the results are untouched. *)
Theorem cancel_job_marks_any_job_cancelled (rt : PyRuntime)
    (job_id : string) (w : World) :
  let r := cancel_job rt job_id w in
  outcome r = Ok [("status", JStr "cancelled");
                  ("job_id", JStr job_id);
                  ("message", JStr "Job cancelled successfully")] /\
  active_jobs (final r) !! job_id = None /\
  scraping_jobs (final r) !! job_id
  = apply_update "cancelled" (Some (clock w)) None
    <$> scraping_jobs w !! job_id /\
  status_of (final r) job_id
  = (fun _ => "cancelled") <$> status_of w job_id /\
  (forall job_id', job_id <> job_id' ->
     scraping_jobs (final r) !! job_id' = scraping_jobs w !! job_id') /\
  generated_scripts (final r) = generated_scripts w /\
  extracted_data (final r) = extracted_data w.
Proof.
  intros r. subst r. rewrite cancel_job_run. cbn [outcome final].
  split; [reflexivity|]. split; [|split; [|split; [|split; [|split]]]].
  - rewrite registry_at_announced, registry_at_committed.
    apply registry_at_unregistered.
  - rewrite jobs_at_announced, jobs_at_committed, jobs_at_registry.
    rewrite clock_at_registry. reflexivity.
  - rewrite status_of_announced, status_of_committed, status_of_registry.
    reflexivity.
  - intros j' Hne.
    rewrite jobs_at_announced, jobs_at_committed_ne by exact Hne.
    rewrite jobs_at_registry. reflexivity.
  - rewrite scripts_at_announced, scripts_at_committed, scripts_at_registry.
    reflexivity.
  - rewrite data_at_announced, data_at_committed, data_at_registry.
    reflexivity.
Qed.

(** X13.  A cancellation is announced to every client connected over an
    open socket, subscribed to the job or not, and also when no job has the
    id: the client is sent one more message, the status update
    [cancelled]. *)
Theorem cancel_job_is_announced_to_every_open_client (rt : PyRuntime)
    (job_id : string) (w : World) (client_id : string)
    (sent : list pydict) :
  open_client w client_id sent ->
  open_client (final (cancel_job rt job_id w)) client_id
    (sent ++ [status_message rt job_id "cancelled" None (S (clock w))]).
Proof.
  intros Ho. rewrite cancel_job_run. cbn [final].
  pose proof (status_announced_open rt job_id "cancelled" None
                (status_committed job_id "cancelled" None
                   (with_active_jobs (delete job_id) w))
                client_id sent) as H.
  rewrite clock_at_committed, clock_at_registry in H. cbn in H.
  apply H. apply status_committed_open, registry_open. exact Ho.
Qed.

Lemma cancel_job_is_announced_to_every_open_client_witness :
  open_client example_world "bob" [] /\
  open_client (final (cancel_job example_runtime "no-such-job" example_world))
    "bob" [status_message example_runtime "no-such-job" "cancelled" None 2].
Proof.
  assert (H : open_client example_world "bob" [])
    by (vm_compute; reflexivity).
  split; [exact H|].
  exact (cancel_job_is_announced_to_every_open_client example_runtime
           "no-such-job" example_world "bob" [] H).
Defined.

(** ** Deleting *)

Lemma filter_other_job {X} (key : X -> string) (job_id job_id' : string)
    (l : list X) :
  job_id' <> job_id ->
  filter (fun x => key x = job_id')
         (filter (fun x => key x <> job_id) l)
  = filter (fun x => key x = job_id') l.
Proof.
  intros Hne. induction l as [|x l IH]; [reflexivity|].
  rewrite (filter_cons (fun x => key x <> job_id)).
  rewrite (filter_cons (fun x => key x = job_id') x l).
  destruct (decide (key x = job_id')) as [E|E].
  - rewrite decide_True by congruence.
    rewrite filter_cons, decide_True by exact E. rewrite IH. reflexivity.
  - destruct (decide (key x <> job_id)); [|exact IH].
    rewrite filter_cons, decide_False by exact E. exact IH.
Qed.

Lemma filter_same_job {X} (key : X -> string) (job_id : string)
    (l : list X) :
  filter (fun x => key x = job_id) (filter (fun x => key x <> job_id) l) = [].
Proof.
  induction l as [|x l IH]; [reflexivity|].
  rewrite (filter_cons (fun x => key x <> job_id)).
  destruct (decide (key x <> job_id)) as [E|E]; [|exact IH].
  rewrite filter_cons, decide_False by exact E. exact IH.
Qed.

(** X14.  [delete_job] of a job that exists returns the [deleted] answer
    and removes the job together with its scripts and results; the rows of
    every other job are as before, the job is out of the registry, and the
    hub is untouched: unlike a status change, a deletion is not announced
    to the clients. *)
Theorem delete_job_removes_the_job_and_its_records (job_id : string)
    (w : World) :
  is_Some (scraping_jobs w !! job_id) ->
  let r := delete_job job_id w in
  outcome r = Ok [("status", JStr "deleted");
                  ("job_id", JStr job_id);
                  ("message", JStr "Job deleted successfully")] /\
  scraping_jobs (final r) !! job_id = None /\
  scripts_of (final r) job_id = [] /\
  data_of (final r) job_id = [] /\
  active_jobs (final r) !! job_id = None /\
  connection_manager (final r) = connection_manager w /\
  forall job_id', job_id' <> job_id ->
    scraping_jobs (final r) !! job_id' = scraping_jobs w !! job_id' /\
    scripts_of (final r) job_id' = scripts_of w job_id' /\
    data_of (final r) job_id' = data_of w job_id'.
Proof.
  intros [job Hjob] r. subst r.
  assert (Hrun : delete_job job_id w
                 = mkRun [with_active_jobs (delete job_id) w;
                          job_deleted job_id
                            (with_active_jobs (delete job_id) w)]
                         (Ok [("status", JStr "deleted");
                              ("job_id", JStr job_id);
                              ("message", JStr "Job deleted successfully")])
                         (job_deleted job_id
                            (with_active_jobs (delete job_id) w))).
  { unfold delete_job. apply runs_try_except_ok.
    eapply (runs_bind_ok _ _ _ [_]); [apply runs_effect|].
    eapply (runs_bind_ok _ _ _ [] (Some job)).
    { unfold runs, select_job. rewrite jobs_at_registry, Hjob. reflexivity. }
    cbv beta iota.
    eapply (runs_bind_ok _ _ _ [_]); [apply runs_effect|].
    apply runs_ret. }
  rewrite Hrun. cbn [outcome final].
  unfold scripts_of, data_of, job_deleted.
  cbn [scraping_jobs generated_scripts extracted_data connection_manager
       active_jobs].
  rewrite scripts_at_registry, data_at_registry, jobs_at_registry,
    hub_at_registry.
  split; [reflexivity|]. split; [apply lookup_delete_eq|].
  split; [apply (filter_same_job script_job_id)|].
  split; [apply (filter_same_job data_job_id)|].
  split; [apply registry_at_unregistered|]. split; [reflexivity|].
  intros j' Hne. split; [apply lookup_delete_ne; congruence|]. split.
  - apply (filter_other_job script_job_id). exact Hne.
  - apply (filter_other_job data_job_id). exact Hne.
Qed.

Lemma delete_job_removes_the_job_and_its_records_witness :
  is_Some (scraping_jobs example_world !! "job-1") /\
  scraping_jobs (final (delete_job "job-1" example_world)) !! "job-1" = None.
Proof.
  assert (H : is_Some (scraping_jobs example_world !! "job-1"))
    by (eexists; vm_compute; reflexivity).
  split; [exact H|].
  exact (proj1 (proj2 (delete_job_removes_the_job_and_its_records
                         "job-1" example_world H))).
Defined.

(** X15.  [delete_job] of an id that no job has raises the exception that
    says so, after it has taken the id out of the registry: the database
    and the hub are as before, the registry is without the id. *)
Theorem delete_job_of_an_unknown_job (job_id : string) (w : World) :
  scraping_jobs w !! job_id = None ->
  let r := delete_job job_id w in
  outcome r = Raise (Exception ("Failed to delete job: Job " ++ job_id
                                ++ " not found")) /\
  final r = with_active_jobs (delete job_id) w /\
  active_jobs (final r) = delete job_id (active_jobs w) /\
  scraping_jobs (final r) = scraping_jobs w /\
  generated_scripts (final r) = generated_scripts w /\
  extracted_data (final r) = extracted_data w /\
  connection_manager (final r) = connection_manager w.
Proof.
  intros Hjob r. subst r.
  assert (Hrun : delete_job job_id w
                 = mkRun [with_active_jobs (delete job_id) w]
                         (Raise (Exception ("Failed to delete job: Job "
                                            ++ job_id ++ " not found")))
                         (with_active_jobs (delete job_id) w)).
  { unfold delete_job.
    eapply (runs_try_except_raise _ _ _ [_]
              (Exception ("Job " ++ job_id ++ " not found")) _ []);
      [|unfold runs; reflexivity].
    eapply (runs_cast _ _ ([_] ++ [])); [reflexivity|].
    eapply (runs_bind_ok _ _ _ [_]); [apply runs_effect|].
    eapply (runs_bind_ok _ _ _ [] (@None ScrapingJob)).
    { unfold runs, select_job. rewrite jobs_at_registry, Hjob. reflexivity. }
    unfold runs. reflexivity. }
  rewrite Hrun. cbn [outcome final].
  rewrite registry_at_registry, jobs_at_registry, scripts_at_registry,
    data_at_registry, hub_at_registry.
  repeat split; reflexivity.
Qed.

Lemma delete_job_of_an_unknown_job_witness :
  scraping_jobs example_world !! "job-2" = None /\
  outcome (delete_job "job-2" example_world)
  = Raise (Exception "Failed to delete job: Job job-2 not found").
Proof.
  assert (H : scraping_jobs example_world !! "job-2" = None)
    by (vm_compute; reflexivity).
  split; [exact H|].
  exact (proj1 (delete_job_of_an_unknown_job "job-2" example_world H)).
Defined.

(** ** Reading the results of a run *)

(** Rewrites the clock and the registry of a world of a run to those of the
    world the run started in. *)
Ltac clocks :=
  repeat match goal with
    | |- context [clock (logged ?rt ?j ?s ?m ?w)] =>
        rewrite (clock_at_logged rt j s m w)
    | |- context [clock (script_saved ?j ?c ?w)] =>
        rewrite (clock_at_script_saved j c w)
    | |- context [clock (data_saved ?j ?v ?n ?w)] =>
        rewrite (clock_at_data_saved j v n w)
    | |- context [clock (status_announced ?rt ?j ?s ?e ?w)] =>
        rewrite (clock_at_announced rt j s e w)
    | |- context [clock (status_committed ?j ?s ?e ?w)] =>
        rewrite (clock_at_committed j s e w)
    | |- context [clock (with_active_jobs ?f ?w)] =>
        rewrite (clock_at_registry f w)
    | |- context [active_jobs (logged ?rt ?j ?s ?m ?w)] =>
        rewrite (registry_at_logged rt j s m w)
    | |- context [active_jobs (script_saved ?j ?c ?w)] =>
        rewrite (registry_at_script_saved j c w)
    | |- context [active_jobs (data_saved ?j ?v ?n ?w)] =>
        rewrite (registry_at_data_saved j v n w)
    | |- context [active_jobs (status_announced ?rt ?j ?s ?e ?w)] =>
        rewrite (registry_at_announced rt j s e w)
    | |- context [active_jobs (status_committed ?j ?s ?e ?w)] =>
        rewrite (registry_at_committed j s e w)
    | |- context [active_jobs (with_active_jobs ?f ?w)] =>
        rewrite (registry_at_registry f w)
    end.

(** The tables after a run in which both collaborators succeed. *)
Lemma successful_run_tables rt sr er job_id w :
  sr_status sr = "success" -> er_status er = "success" ->
  let w' := final (execution rt (Ok sr) (Ok er) job_id w) in
  generated_scripts w'
  = (generated_scripts w
     ++ [{| script_job_id := job_id; script_content := sr_script sr;
            script_type := "playwright";
            script_created_at := 3 + clock w |}])%list /\
  extracted_data w'
  = (extracted_data w
     ++ [{| data_job_id := job_id; data := er_data er;
            extracted_at := 6 + clock w;
            data_count := er_data_count er |}])%list /\
  scraping_jobs w' !! job_id
  = apply_update "completed" (Some (8 + clock w)) None
    <$> scraping_jobs w !! job_id.
Proof.
  intros Hs He w'. subst w'. unfold execution, attempt. cbv zeta.
  rewrite Hs, He. cbn [String.eqb Ascii.eqb Bool.eqb negb outcome final].
  split; [|split]; tables; clocks; reflexivity.
Qed.


Lemma latest_bound (P : ExtractedData -> Prop) (rows : list ExtractedData)
    (row : ExtractedData) :
  P row -> Forall P rows ->
  P (fold_left (fun best x =>
                  if (extracted_at best <? extracted_at x)%nat
                  then x else best) rows row).
Proof.
  revert row. induction rows as [|x rows IH]; intros row Hr Hl; cbn;
    [exact Hr|].
  apply Forall_cons in Hl as [Hx Hl].
  apply IH; [|exact Hl].
  match goal with |- P (if ?b then _ else _) => destruct b end; assumption.
Qed.

Lemma latest_last (rows : list ExtractedData) (row : ExtractedData) :
  Forall (fun d => (extracted_at d < extracted_at row)%nat) rows ->
  latest (rows ++ [row]) = Some row.
Proof.
  intros Hl. destruct rows as [|d rows]; [reflexivity|].
  apply Forall_cons in Hl as [Hd Hl]. cbn [latest app].
  rewrite fold_left_app. cbn [fold_left].
  pose proof (latest_bound _ rows d Hd Hl) as Hb. cbv beta in Hb.
  apply Nat.ltb_lt in Hb. rewrite Hb. reflexivity.
Qed.

(** [get_job_results] on a completed job whose last result is the latest. *)
Lemma get_job_results_latest rt job_id w job rows row :
  scraping_jobs w !! job_id = Some job ->
  job_status job = "completed" ->
  data_of w job_id = (rows ++ [row])%list ->
  Forall (fun d => (extracted_at d < extracted_at row)%nat) rows ->
  get_job_results rt job_id w
  = mkRun []
      (Ok (Some [("status", JStr "completed");
                 ("job_id", JStr job_id);
                 ("url", JStr (job_url job));
                 ("data", data row);
                 ("data_count", JInt (Z.of_nat (data_count row)));
                 ("extracted_at", JStr (isoformat rt (extracted_at row)));
                 ("schema_definition", JDict (job_schema_definition job))]))
      w.
Proof.
  intros Hj Hs Hd Hl.
  unfold get_job_results. apply runs_try_except_ok.
  eapply (runs_bind_ok _ _ _ [] (Some job)).
  { unfold runs, select_job. rewrite Hj. reflexivity. }
  cbv beta iota. rewrite Hs.
  cbn [String.eqb Ascii.eqb Bool.eqb negb].
  eapply (runs_bind_ok _ _ _ [] _); [unfold runs, select_data; reflexivity|].
  cbv beta. rewrite Hd, latest_last by exact Hl.
  apply runs_ret.
Qed.

(** The results of the job after a run in which both collaborators
    succeed. *)
Lemma successful_run_results rt sr er job_id w :
  sr_status sr = "success" -> er_status er = "success" ->
  data_of (final (execution rt (Ok sr) (Ok er) job_id w)) job_id
  = (data_of w job_id
     ++ [{| data_job_id := job_id; data := er_data er;
            extracted_at := 6 + clock w;
            data_count := er_data_count er |}])%list.
Proof.
  intros Hs He.
  destruct (successful_run_tables rt sr er job_id w Hs He) as (_ & Hd & _).
  cbv zeta in Hd. unfold data_of. rewrite Hd, filter_app.
  rewrite (filter_cons_True _ _ []) by reflexivity. rewrite filter_nil.
  reflexivity.
Qed.

(** X16.  After a run of the pipeline in which both collaborators succeed,
    [get_job_results] on the job returns the result of that run: its data
    and its count, with the url and the schema of the job.  The job is
    assumed to exist and its earlier results, if any, to carry times before
    the clock reading at the start of the run. *)
Theorem results_of_a_successful_run (rt : PyRuntime) (sr : ScriptResult)
    (er : ExtractionResult) (job_id url : string)
    (schema_definition : pydict) (w : World) (job : ScrapingJob) :
  sr_status sr = "success" -> er_status er = "success" ->
  scraping_jobs w !! job_id = Some job ->
  Forall (fun d => (extracted_at d < clock w)%nat) (data_of w job_id) ->
  let w' := final (_execute_scraping_job rt (Ok sr) (Ok er) job_id url
                     schema_definition w) in
  get_job_results rt job_id w'
  = mkRun []
      (Ok (Some [("status", JStr "completed");
                 ("job_id", JStr job_id);
                 ("url", JStr (job_url job));
                 ("data", er_data er);
                 ("data_count", JInt (Z.of_nat (er_data_count er)));
                 ("extracted_at", JStr (isoformat rt (6 + clock w)));
                 ("schema_definition", JDict (job_schema_definition job))]))
      w'.
Proof.
  intros Hs He Hjob Hpast w'. subst w'. rewrite execute_scraping_job_run.
  destruct (successful_run_tables rt sr er job_id w Hs He) as (_ & _ & Hj).
  cbv zeta in Hj. rewrite Hjob in Hj.
  apply (get_job_results_latest rt job_id _ _ (data_of w job_id)
           {| data_job_id := job_id; data := er_data er;
              extracted_at := 6 + clock w;
              data_count := er_data_count er |} Hj eq_refl
           (successful_run_results rt sr er job_id w Hs He)).
  cbn [extracted_at]. eapply Forall_impl; [exact Hpast|].
  cbv beta. intros d Hlt. lia.
Qed.

Lemma results_of_a_successful_run_witness :
  outcome (get_job_results example_runtime "job-1"
             (final (_execute_scraping_job example_runtime
                       (Ok example_script) (Ok example_extraction) "job-1"
                       "https://example.com/" [] example_world)))
  = Ok (Some [("status", JStr "completed");
              ("job_id", JStr "job-1");
              ("url", JStr "https://example.com/");
              ("data", JList []);
              ("data_count", JInt 0);
              ("extracted_at", JStr (isoformat example_runtime 7));
              ("schema_definition", JDict [])]).
Proof.
  rewrite (results_of_a_successful_run example_runtime example_script
             example_extraction "job-1" "https://example.com/" []
             example_world
             {| job_url := "https://example.com/";
                job_schema_definition := [];
                job_status := "running";
                job_created_at := 0;
                job_completed_at := None;
                job_error_message := None;
                job_user_id := "anonymous" |});
    [reflexivity | reflexivity | reflexivity | vm_compute; reflexivity
     | apply Forall_nil_2].
Defined.



(** X18.  After a run of the pipeline in which both collaborators succeed,
    [get_job_script] returns the script of that run when the job had no
    script before; when it had one, the job now has two and
    [get_job_script] raises: [scalar_one_or_none] does not accept several
    rows. *)
Theorem script_of_a_successful_run (rt : PyRuntime) (sr : ScriptResult)
    (er : ExtractionResult) (job_id url : string)
    (schema_definition : pydict) (w : World) :
  sr_status sr = "success" -> er_status er = "success" ->
  let w' := final (_execute_scraping_job rt (Ok sr) (Ok er) job_id url
                     schema_definition w) in
  outcome (get_job_script rt job_id w')
  = match scripts_of w job_id with
    | [] => Ok (Some [("job_id", JStr job_id);
                      ("script_content", JStr (sr_script sr));
                      ("script_type", JStr "playwright");
                      ("created_at", JStr (isoformat rt (3 + clock w)))])
    | _ :: _ =>
        Raise (Exception
                 "Failed to get job script: Multiple rows were found when one or none was required")
    end.
Proof.
  intros Hs He w'. subst w'. rewrite execute_scraping_job_run.
  destruct (successful_run_tables rt sr er job_id w Hs He) as (Hg & _ & _).
  cbv zeta in Hg.
  set (w' := final (execution rt (Ok sr) (Ok er) job_id w)) in *.
  assert (Hrows : scripts_of w' job_id
                  = (scripts_of w job_id
                     ++ [{| script_job_id := job_id;
                            script_content := sr_script sr;
                            script_type := "playwright";
                            script_created_at := 3 + clock w |}])%list).
  { unfold scripts_of. rewrite Hg, filter_app.
    rewrite (filter_cons_True _ _ []) by reflexivity.
    rewrite filter_nil. reflexivity. }
  unfold get_job_script, try_except, mbind, Coroutine_bind, select_scripts,
    await.
  cbn [outcome final seen]. rewrite Hrows.
  destruct (scripts_of w job_id) as [|s [|s' rest]]; reflexivity.
Qed.

Lemma script_of_a_successful_run_witness :
  outcome (get_job_script example_runtime "job-1"
             (final (_execute_scraping_job example_runtime
                       (Ok example_script) (Ok example_extraction) "job-1"
                       "https://example.com/" [] example_world)))
  = Ok (Some [("job_id", JStr "job-1");
              ("script_content", JStr "return [];");
              ("script_type", JStr "playwright");
              ("created_at", JStr (isoformat example_runtime 4))]).
Proof.
  rewrite (script_of_a_successful_run example_runtime example_script
             example_extraction "job-1" "https://example.com/" []
             example_world eq_refl eq_refl).
  reflexivity.
Defined.

(** ** Starting in the background *)

#[local] Transparent status_committed.


#[global] Opaque status_committed.



(** ** The registry *)

Lemma registry_after_attempt rt so eo job_id w :
  active_jobs (final (attempt rt so eo job_id w)) = active_jobs w.
Proof.
  unfold attempt. cbv zeta.
  destruct so as [sr|e1]; [|cbn [final]; clocks; reflexivity].
  destruct (negb (String.eqb (sr_status sr) "success"));
    [cbn [final]; clocks; reflexivity|].
  destruct eo as [er|e2]; [|cbn [final]; clocks; reflexivity].
  destruct (negb (String.eqb (er_status er) "success"));
    cbn [final]; clocks; reflexivity.
Qed.

Lemma active_job_ids_spec (w : World) (job_id : string) :
  job_id ∈ get_active_job_ids w <-> is_Some (active_jobs w !! job_id).
Proof.
  unfold get_active_job_ids. change map with (@fmap list _). split.
  - intros H. apply list_elem_of_fmap in H as ([j t] & -> & H).
    apply elem_of_map_to_list in H. cbn. eexists. exact H.
  - intros [t H]. apply list_elem_of_fmap. exists (job_id, t).
    split; [reflexivity|]. apply elem_of_map_to_list. exact H.
Qed.

(** X20.  A run of the pipeline, however it ends, takes its own job out of
    the registry and no other: [get_active_job_ids] lists afterwards the
    ids it listed before except the job's, and [get_active_jobs_count] is
    one less when the job was registered. *)
Theorem execution_unregisters_its_job_only (rt : PyRuntime)
    (so : PyResult ScriptResult) (eo : PyResult ExtractionResult)
    (job_id url : string) (schema_definition : pydict) (w : World) :
  let w' := final (_execute_scraping_job rt so eo job_id url
                     schema_definition w) in
  (forall job_id',
     job_id' ∈ get_active_job_ids w'
     <-> job_id' ∈ get_active_job_ids w /\ job_id' <> job_id) /\
  get_active_jobs_count w'
  = match active_jobs w !! job_id with
    | Some _ => pred (get_active_jobs_count w)
    | None => get_active_jobs_count w
    end.
Proof.
  intros w'. subst w'. rewrite execute_scraping_job_run.
  assert (Hreg : active_jobs (final (execution rt so eo job_id w))
                 = delete job_id (active_jobs w)).
  { unfold execution. cbv zeta.
    pose proof (registry_after_attempt rt so eo job_id w) as Ha.
    destruct (outcome (attempt rt so eo job_id w)).
    - cbn [final]. rewrite registry_at_registry, Ha. reflexivity.
    - unfold failed_run. cbv zeta. cbn [final].
      rewrite registry_at_registry, registry_at_announced,
        registry_at_committed, registry_at_logged, Ha. reflexivity. }
  split.
  - intros j'. rewrite !active_job_ids_spec, Hreg.
    destruct (decide (j' = job_id)) as [->|Hne].
    + rewrite lookup_delete_eq. split; [intros [? H]; discriminate H|].
      intros [_ H]. congruence.
    + rewrite lookup_delete_ne by congruence. tauto.
  - unfold get_active_jobs_count. rewrite Hreg, map_size_delete.
    destruct (active_jobs w !! job_id); reflexivity.
Qed.

(** ** From creation to results *)



(** * More of the analyzer *)



(** X22.  When the validation schema of the input can be built, the
    analyzer does not raise: it returns the analysis of the [try] block,
    or, when that block raises [e], the fallback decision: playwright,
    score 0.8, 30 seconds, no interaction, no hints, and the text of [e] in
    its one reason. *)
Theorem fallback_decision (rt : PyRuntime) (now : nat)
    (url html_content : string) (schema_definition : pydict)
    (page_metrics : option pydict) (zod : ZodValidation) :
  _generate_zod_validation rt (S now) schema_definition = Ok zod ->
  exists a,
    analyze_extraction_requirements rt now url html_content schema_definition
                                    page_metrics = Ok a /\
    forall e,
      analysis_try rt now url html_content schema_definition page_metrics
      = Raise e ->
      a = {| method := "playwright";
             complexity_score := 0.8;
             reasons := ["Analysis error, defaulting to Playwright: "
                         ++ str_of_exc e];
             estimated_load_time := 30;
             requires_interaction := false;
             zod_validation := zod;
             extraction_hints := [] |}.
Proof.
  intros Hz. unfold analyze_extraction_requirements.
  destruct (analysis_try _ _ _ _ _ _) as [a|e].
  - exists a. split; [reflexivity | discriminate].
  - rewrite Hz. cbn. eexists. split; [reflexivity|].
    intros e' [= <-]. reflexivity.
Qed.

Lemma fallback_decision_witness :
  let page_metrics := Some [("load_time", JStr "fast")] in
  exists a,
    analyze_extraction_requirements example_runtime 0 "https://example.com/"
      "<html></html>" [] page_metrics = Ok a /\
    method a = "playwright" /\ complexity_score a = 0.8%Q.
Proof.
  intros page_metrics.
  destruct (fallback_decision example_runtime 0
              "https://example.com/" "<html></html>" [] page_metrics
              {| schema_type := JStr "object"; zod_fields := [];
                 generated_at := isoformat example_runtime 1 |})
    as (a & Ha & Hf); [reflexivity|].
  exists a. split; [exact Ha|].
  rewrite (Hf (TypeError
                 "'>' not supported between instances of 'str' and 'int'"));
    [split; reflexivity | vm_compute; reflexivity].
Defined.

(** ** The validation schema *)

Lemma zod_fold_raise (rt : PyRuntime) (l : list (string * json)) (e : PyExc) :
  fold_left (zod_step rt) l (Raise e) = Raise e.
Proof. induction l as [|x l IH]; [reflexivity | exact IH]. Qed.

Lemma dict_set_fresh {V} (d : list (string * V)) (k : string) (v : V) :
  k ∉ map fst d -> dict_set d k v = (d ++ [(k, v)])%list.
Proof.
  induction d as [|[k' v'] d IH]; cbn; [reflexivity|].
  intros H. apply not_elem_of_cons in H as [Hne H].
  destruct (String.eqb k' k) eqn:E.
  - apply String.eqb_eq in E. congruence.
  - rewrite IH by exact H. reflexivity.
Qed.

Lemma zod_fold_fields (rt : PyRuntime) (l : list (string * json))
    (acc z : list (string * string)) :
  NoDup (map fst acc ++ map fst l) ->
  fold_left (zod_step rt) l (Ok acc) = Ok z ->
  map fst z = (map fst acc ++ map fst (filter (fun item => is_dict (snd item) = true) l))%list.
Proof.
  revert acc. induction l as [|[k v] l IH]; intros acc Hn H.
  - cbn in H. injection H as <-. rewrite filter_nil, app_nil_r. reflexivity.
  - cbn [fold_left] in H. rewrite filter_cons.
    cbn [snd is_dict].
    destruct v; cbn in H;
      try (rewrite decide_False by discriminate;
           apply IH; [|exact H];
           cbn in Hn; apply NoDup_app in Hn as (Ha & Hd & Hl);
           apply NoDup_cons in Hl as [_ Hl];
           apply NoDup_app; split; [exact Ha|]; split; [|exact Hl];
           intros x Hx Hx'; apply (Hd x Hx); apply elem_of_cons; auto).
    rewrite decide_True by reflexivity.
    destruct (zod_type_of rt d) as [t|e]; cbn in H;
      [|rewrite zod_fold_raise in H; discriminate H].
    cbn in Hn.
    assert (Hk : k ∉ map fst acc).
    { apply NoDup_app in Hn as (_ & Hd & _). intros Hk.
      apply (Hd k Hk). apply elem_of_cons. auto. }
    rewrite dict_set_fresh in H by exact Hk.
    apply IH in H.
    + rewrite H, map_app. cbn. rewrite <- app_assoc. reflexivity.
    + rewrite map_app. cbn. rewrite <- app_assoc. exact Hn.
Qed.

(** X23.  The validation schema has one rule for each field whose
    configuration is a dict, under the name of the field and in the order
    of the schema, and none for any other field.  The names of the fields
    are those of a Python dict: no name comes twice. *)
Theorem validation_has_a_rule_per_configured_field (rt : PyRuntime)
    (now : nat) (schema_definition : pydict) (fields : pydict)
    (zod : ZodValidation) :
  schema_fields schema_definition = JDict fields ->
  NoDup (map fst fields) ->
  _generate_zod_validation rt now schema_definition = Ok zod ->
  map fst (zod_fields zod) = map fst (filter (fun item => is_dict (snd item) = true) fields).
Proof.
  intros Hf Hn H. unfold _generate_zod_validation in H. cbv zeta in H.
  rewrite Hf in H. cbn in H.
  destruct (fold_left (zod_step rt) fields (Ok [])) as [z|e] eqn:E;
    cbn in H; [|discriminate H].
  injection H as <-. cbn.
  exact (zod_fold_fields rt fields [] z Hn E).
Qed.

Lemma validation_has_a_rule_per_configured_field_witness :
  let schema_definition :=
    [("type", JStr "object");
     ("properties",
      JDict [("title", JDict [("type", JStr "string")]);
             ("price", JStr "number");
             ("tags", JDict [("type", JStr "array")])])] in
  exists zod,
    _generate_zod_validation example_runtime 0 schema_definition = Ok zod /\
    map fst (zod_fields zod) = ["title"; "tags"].
Proof.
  intros schema_definition. eexists. split; [vm_compute; reflexivity|].
  rewrite (validation_has_a_rule_per_configured_field example_runtime 0
             schema_definition
             [("title", JDict [("type", JStr "string")]);
              ("price", JStr "number");
              ("tags", JDict [("type", JStr "array")])] _ eq_refl);
    [reflexivity | | vm_compute; reflexivity].
  repeat (apply NoDup_cons_2; [vm_compute; intros H; repeat (apply elem_of_cons in H as [H|H]; [discriminate H|]); inversion H |]).
  apply NoDup_nil_2.
Defined.

(** X24.  A schema that names the type of each field by a word, as the
    templates of [COMMON_SCHEMAS] do, gets a validation schema without any
    rule: [_generate_zod_validation] skips every field whose configuration
    is not a dict, and does not raise. *)
Theorem flat_schema_gets_no_validation (rt : PyRuntime) (now : nat)
    (schema_definition : pydict) (fields : pydict) :
  schema_fields schema_definition = JDict fields ->
  Forall (fun item => is_dict (snd item) = false) fields ->
  _generate_zod_validation rt now schema_definition
  = Ok {| schema_type := get_default schema_definition "type" (JStr "object");
          zod_fields := [];
          generated_at := isoformat rt now |}.
Proof.
  intros Hf Hflat. unfold _generate_zod_validation. cbv zeta.
  rewrite Hf. cbn [items mbind PyResult_bind rbind].
  assert (E : fold_left (zod_step rt) fields (Ok []) = Ok []).
  { clear Hf. generalize (@nil (string * string)).
    induction Hflat as [|[k v] l Hv Hl IH]; intros acc; [reflexivity|].
    cbn [fold_left]. cbn in Hv.
    destruct v; try discriminate Hv;
      (change (zod_step rt (Ok acc) (k, _)) with (@Ok (list (string * string)) acc);
       apply IH). }
  rewrite E. reflexivity.
Qed.

Lemma flat_schema_gets_no_validation_witness :
  Forall (fun schema =>
            exists zod,
              _generate_zod_validation example_runtime 0 (snd schema)
              = Ok zod /\ zod_fields zod = [])
         COMMON_SCHEMAS.
Proof.
  assert (H : forall names,
            exists zod,
              _generate_zod_validation example_runtime 0 (template names)
              = Ok zod /\ zod_fields zod = []).
  { intros names. eexists. split; [apply (flat_schema_gets_no_validation example_runtime 0 (template names)
             (map (fun name => (name, JStr "string")) names) eq_refl);
      induction names; [apply Forall_nil_2|];
      apply Forall_cons_2; [reflexivity | assumption]
    | reflexivity]. }
  repeat (apply Forall_cons_2; [apply H|]). apply Forall_nil_2.
Defined.

(** * Cleaning of extracted data *)

Section CleaningFacts.
Variables strip collapse : string -> string.

Lemma dict_set_values (P : json -> Prop) (d : pydict) (k : string)
    (v : json) :
  P v -> Forall (fun item => P (snd item)) d ->
  Forall (fun item => P (snd item)) (dict_set d k v).
Proof.
  intros Hv. induction 1 as [|[k' v'] d Hx Hd IH]; cbn.
  - apply Forall_cons_2; [exact Hv | apply Forall_nil_2].
  - destruct (String.eqb k' k).
    + apply Forall_cons_2; [exact Hv | exact Hd].
    + apply Forall_cons_2; [exact Hx | exact IH].
Qed.

Lemma clean_step_values (acc : pydict) (item : string * json) :
  Forall (fun item => blank (snd item) = false) acc ->
  Forall (fun item => blank (snd item) = false)
         (clean_step strip collapse acc item).
Proof.
  intros Hacc. destruct item as [k v]. unfold clean_step.
  destruct v as [|b|z|q|s|l|d]; try exact Hacc;
    try (apply (dict_set_values (fun v => blank v = false)); [reflexivity | exact Hacc]).
  - destruct (String.eqb (collapse (strip s)) EmptyString) eqn:E; cbn [negb];
      [exact Hacc|].
    apply (dict_set_values (fun v => blank v = false)); [exact E | exact Hacc].
  - destruct (clean_list strip l) eqn:E; [exact Hacc|].
    apply (dict_set_values (fun v => blank v = false)); [reflexivity | exact Hacc].
Qed.

Lemma clean_fold_values (d acc : pydict) :
  Forall (fun item => blank (snd item) = false) acc ->
  Forall (fun item => blank (snd item) = false)
         (fold_left (clean_step strip collapse) d acc).
Proof.
  revert acc. induction d as [|x d IH]; intros acc Hacc; [exact Hacc|].
  cbn [fold_left]. apply IH, clean_step_values, Hacc.
Qed.

(** X25.  An item cleaned by [_clean_data_item] holds no blank value: a
    dict that comes out of it has, under each of its keys, a value that is
    neither [None], nor an empty string, nor an empty list; and it is not
    the empty dict, for which [None] is returned. *)
Theorem cleaned_item_has_no_blank_value (item : json) (cleaned : pydict) :
  _clean_data_item strip collapse item = JDict cleaned ->
  cleaned <> [] /\
  Forall (fun entry => blank (snd entry) = false) cleaned.
Proof.
  intros H. destruct item; try discriminate H. cbn in H.
  pose proof (clean_fold_values d [] (Forall_nil_2 _)) as Hall.
  destruct (fold_left (clean_step strip collapse) d []) as [|x l];
    [discriminate H|].
  injection H as <-. split; [discriminate | exact Hall].
Qed.

(** X26.  Cleaning never adds items: the count of the cleaned data, which
    [execute_extraction_script] reports as [data_count], is at most the
    count of the data the script returned.  A list loses the items that
    clean to nothing; a single dict that cleans to nothing counts 0. *)
Theorem cleaning_never_adds_items (data : json) (schema : pydict) :
  _count_extracted_items (_clean_extracted_data strip collapse data schema)
  <= _count_extracted_items data.
Proof.
  unfold _clean_extracted_data.
  destruct (negb (truthy data)
            || match data with
               | JDict d => has_key "error" d
               | _ => false
               end) eqn:E; [reflexivity|].
  destruct data; try reflexivity.
  - cbn. etransitivity; [apply length_filter|]. rewrite length_map.
    reflexivity.
  - apply orb_false_iff in E as [_ E]. cbn. rewrite E. cbn.
    destruct (fold_left (clean_step strip collapse) d []); cbn; [lia|].
    destruct (negb (has_key "error" (p :: l))); lia.
Qed.
End CleaningFacts.

Lemma cleaned_item_has_no_blank_value_witness :
  let item := JDict [("title", JStr "  Rocq  "); ("price", JNone);
                     ("tags", JList [])] in
  _clean_data_item example_strip id item = JDict [("title", JStr "Rocq")] /\
  Forall (fun entry => blank (snd entry) = false) [("title", JStr "Rocq")].
Proof.
  intros item.
  assert (H : _clean_data_item example_strip id item
              = JDict [("title", JStr "Rocq")]) by (vm_compute; reflexivity).
  split; [exact H|].
  exact (proj2 (cleaned_item_has_no_blank_value example_strip id item _ H)).
Defined.
